(** * flight_assistant_api: the extraction, normalization and validation
      pipeline of [app.py]

    A shallow embedding of [app.py] (one Flask route, [/parse]) and the
    properties its specification states.

    Conventions of the embedding.
    - A Python [str] is a [string]: a sequence of 8-bit characters.  [lower]
      and [strip] act on the ASCII range exactly as [str.lower] and
      [str.strip] do, and a digit is one of 0 to 9; characters above 127
      are left as they are.
    - A value decoded from JSON is a [pyval].
    - An operation that may raise returns a [result]; [Raise e] propagates
      to the [except Exception] handler of [parse_query].
    - Dates follow the [datetime] module: the proleptic Gregorian calendar,
      years 1 to 9999, with the arithmetic on ordinals of CPython.
    - The collaborators that are not part of the repository (the clock, the
      completer, [json.loads], [parsedatetime], [dateutil], [repr]) are the
      fields of a record [externals]; every definition that reaches one of
      them takes the record as an argument, and every theorem holds
      whatever they are. *)

From Stdlib Require Import ZArith Bool List String Ascii Lia SpecFloat.
Import ListNotations.

#[local] Set Warnings "-register-all".

Local Open Scope string_scope.
Local Open Scope Z_scope.

(** ** Exceptions and the error monad *)

Inductive exn : Type :=
| AttributeError
| TypeError
| ValueError
| OverflowError
| External (description : string).

Inductive result (A : Type) : Type :=
| OK (a : A)
| Raise (e : exn).

Arguments OK {A} a.
Arguments Raise {A} e.

Definition bind {A B : Type} (m : result A) (k : A -> result B) : result B :=
  match m with
  | OK a => k a
  | Raise e => Raise e
  end.

Notation "x <- m ;; k" := (bind m (fun x => k))
  (at level 61, m at next level, right associativity).

(** ** Strings *)

Module Str.

Definition code (c : ascii) : Z := Z.of_N (N_of_ascii c).

Definition is_upper (c : ascii) : bool := (65 <=? code c) && (code c <=? 90).

Definition is_digit (c : ascii) : bool := (48 <=? code c) && (code c <=? 57).

(** The ASCII characters for which [str.isspace] holds: TAB, LF, VT, FF, CR,
    the four separators FS, GS, RS, US, and the space. *)
Definition is_space (c : ascii) : bool :=
  ((9 <=? code c) && (code c <=? 13)) || ((28 <=? code c) && (code c <=? 32)).

Definition lower_char (c : ascii) : ascii :=
  if is_upper c then ascii_of_N (N_of_ascii c + 32) else c.

(** [str.lower] *)
Fixpoint lower (s : string) : string :=
  match s with
  | EmptyString => EmptyString
  | String c r => String (lower_char c) (lower r)
  end.

Fixpoint lstrip (s : string) : string :=
  match s with
  | EmptyString => EmptyString
  | String c r => if is_space c then lstrip r else s
  end.

Fixpoint all_space (s : string) : bool :=
  match s with
  | EmptyString => true
  | String c r => is_space c && all_space r
  end.

Fixpoint rstrip (s : string) : string :=
  match s with
  | EmptyString => EmptyString
  | String c r => if all_space s then EmptyString else String c (rstrip r)
  end.

(** [str.strip] with no argument *)
Definition strip (s : string) : string := rstrip (lstrip s).

Fixpoint starts_with (p s : string) : bool :=
  match p, s with
  | EmptyString, _ => true
  | String a p', String b s' => Ascii.eqb a b && starts_with p' s'
  | String _ _, EmptyString => false
  end.

(** [sub in s] *)
Fixpoint contains (sub s : string) : bool :=
  starts_with sub s ||
  match s with
  | EmptyString => false
  | String _ r => contains sub r
  end.

(** [c in s], for a character. *)
Fixpoint has_char (c : ascii) (s : string) : bool :=
  match s with
  | EmptyString => false
  | String a r => Ascii.eqb a c || has_char c r
  end.

(** The last character of [w], if any, is not a space. *)
Fixpoint ends_nonspace (w : string) : bool :=
  match w with
  | EmptyString => true
  | String c EmptyString => negb (is_space c)
  | String _ r => ends_nonspace r
  end.

Fixpoint drop (n : nat) (s : string) : string :=
  match n, s with
  | O, _ => s
  | S n', String _ r => drop n' r
  | S _, EmptyString => EmptyString
  end.

(** The longest prefix of digits, and what follows it. *)
Fixpoint span_digits (s : string) : string * string :=
  match s with
  | String c r =>
      if is_digit c then
        let (ds, rest) := span_digits r in (String c ds, rest)
      else (EmptyString, s)
  | EmptyString => (EmptyString, EmptyString)
  end.

Fixpoint all_digits (s : string) : bool :=
  match s with
  | EmptyString => true
  | String c r => is_digit c && all_digits r
  end.

Definition digit_value (c : ascii) : Z := code c - 48.

Fixpoint digits_value (acc : Z) (s : string) : Z :=
  match s with
  | EmptyString => acc
  | String c r => digits_value (10 * acc + digit_value c) r
  end.

Definition digit_char (d : Z) : ascii := ascii_of_N (Z.to_N (48 + d mod 10)).

Fixpoint decimal_aux (fuel : nat) (n : Z) (acc : string) : string :=
  match fuel with
  | O => acc
  | S fuel' =>
      let acc' := String (digit_char n) acc in
      if n <? 10 then acc' else decimal_aux fuel' (n / 10) acc'
  end.

(** The decimal numeral of a natural number [n]. *)
Definition decimal (n : Z) : string :=
  decimal_aux (S (Z.to_nat (Z.log2 n))) n EmptyString.

(** [str(n)] of an [int] *)
Definition of_int (n : Z) : string :=
  if n <? 0 then String "-"%char (decimal (- n)) else decimal n.

Fixpoint repeat_char (c : ascii) (n : nat) : string :=
  match n with
  | O => EmptyString
  | S n' => String c (repeat_char c n')
  end.

(** [%0wd] for a natural number: zero-filled to at least [w] characters. *)
Definition zero_pad (w : nat) (n : Z) : string :=
  let d := decimal n in
  repeat_char "0"%char (w - String.length d) ++ d.

(** [sep.join(l)] *)
Fixpoint join (sep : string) (l : list string) : string :=
  match l with
  | [] => EmptyString
  | [x] => x
  | x :: r => x ++ sep ++ join sep r
  end.

Fixpoint mem (x : string) (l : list string) : bool :=
  match l with
  | [] => false
  | y :: r => String.eqb x y || mem x r
  end.

End Str.

(** ** Python values *)

(** What [json.loads] can produce.  A [dict] is an association list with at
    most one binding per key; lookup takes the first. *)
Inductive pyval : Type :=
| PyNone
| PyBool (b : bool)
| PyInt (n : Z)
| PyFloat (x : spec_float)
| PyStr (s : string)
| PyList (l : list pyval)
| PyDict (items : list (string * pyval)).

(** Truth value of an object, as [if v], [not v], [a and b], [a or b] test
    it. *)
Definition truthy (v : pyval) : bool :=
  match v with
  | PyNone => false
  | PyBool b => b
  | PyInt n => negb (n =? 0)
  | PyFloat (S754_zero _) => false
  | PyFloat _ => true
  | PyStr s => negb (String.eqb s "")
  | PyList l => match l with [] => false | _ => true end
  | PyDict items => match items with [] => false | _ => true end
  end.

Fixpoint assoc (key : string) (items : list (string * pyval)) : option pyval :=
  match items with
  | [] => None
  | (k, v) :: r => if String.eqb key k then Some v else assoc key r
  end.

Definition get_default (items : list (string * pyval)) (key : string)
    (default : pyval) : pyval :=
  match assoc key items with
  | Some v => v
  | None => default
  end.

(** [d.get(key, default)]; an object that is not a [dict] has no [get]. *)
Definition py_get (d : pyval) (key : string) (default : pyval)
    : result pyval :=
  match d with
  | PyDict items => OK (get_default items key default)
  | _ => Raise AttributeError
  end.

(** [v.lower()]; only a [str] has the method. *)
Definition py_lower (v : pyval) : result string :=
  match v with
  | PyStr s => OK (Str.lower s)
  | _ => Raise AttributeError
  end.

(** The body of a decimal integer literal given to [int]: digits, with single
    underscores allowed between two digits. *)
Fixpoint int_body (after_digit : bool) (acc : Z) (s : string) : option Z :=
  match s with
  | EmptyString => if after_digit then Some acc else None
  | String c r =>
      if Str.is_digit c then int_body true (10 * acc + Str.digit_value c) r
      else if Ascii.eqb c "_"%char && after_digit then int_body false acc r
      else None
  end.

Fixpoint count_digits (s : string) : Z :=
  match s with
  | EmptyString => 0
  | String c r => (if Str.is_digit c then 1 else 0) + count_digits r
  end.

(** The default limit of CPython (3.11, and the later releases of 3.7 to
    3.10) on the number of digits [int] converts from a [str]; a longer
    numeral raises [ValueError]. *)
Definition INT_MAX_STR_DIGITS : Z := 4300.

(** [int(s)] of a [str], base 10. *)
Definition int_of_string (s : string) : result Z :=
  let t := Str.strip s in
  let signed :=
    match t with
    | String "-"%char r => (true, r)
    | String "+"%char r => (false, r)
    | _ => (false, t)
    end in
  match int_body false 0 (snd signed) with
  | Some n =>
      if INT_MAX_STR_DIGITS <? count_digits (snd signed) then Raise ValueError
      else OK (if fst signed then - n else n)
  | None => Raise ValueError
  end.

(** [int(x)] of a [float]: truncation towards zero. *)
Definition int_of_float (x : spec_float) : result Z :=
  match x with
  | S754_zero _ => OK 0
  | S754_infinity _ => Raise OverflowError
  | S754_nan => Raise ValueError
  | S754_finite s m e =>
      let a := if 0 <=? e then Z.pos m * 2 ^ e else Z.pos m / 2 ^ (- e) in
      OK (if s then - a else a)
  end.

(** [int(v)] *)
Definition py_int (v : pyval) : result Z :=
  match v with
  | PyNone => Raise TypeError
  | PyBool b => OK (if b then 1 else 0)
  | PyInt n => OK n
  | PyFloat x => int_of_float x
  | PyStr s => int_of_string s
  | PyList _ => Raise TypeError
  | PyDict _ => Raise TypeError
  end.

(** ** Calendar dates

    The proleptic Gregorian calendar of the [datetime] module: ordinal 1 is
    0001-01-01 and the last representable day, 9999-12-31, has ordinal
    [MAXORDINAL]. *)

Module Cal.

Definition MINYEAR : Z := 1.
Definition MAXYEAR : Z := 9999.
Definition MAXORDINAL : Z := 3652059.

Definition is_leap (year : Z) : bool :=
  (year mod 4 =? 0) && (negb (year mod 100 =? 0) || (year mod 400 =? 0)).

Definition days_before_year (year : Z) : Z :=
  let y := year - 1 in
  y * 365 + y / 4 - y / 100 + y / 400.

Definition DAYS_IN_MONTH (month : Z) : Z :=
  match month with
  | 1 => 31 | 2 => 28 | 3 => 31 | 4 => 30 | 5 => 31 | 6 => 30
  | 7 => 31 | 8 => 31 | 9 => 30 | 10 => 31 | 11 => 30 | 12 => 31
  | _ => -1
  end.

Definition DAYS_BEFORE_MONTH (month : Z) : Z :=
  match month with
  | 1 => 0 | 2 => 31 | 3 => 59 | 4 => 90 | 5 => 120 | 6 => 151
  | 7 => 181 | 8 => 212 | 9 => 243 | 10 => 273 | 11 => 304 | 12 => 334
  | _ => -1
  end.

Definition days_in_month (year month : Z) : Z :=
  if (month =? 2) && is_leap year then 29 else DAYS_IN_MONTH month.

Definition days_before_month (year month : Z) : Z :=
  DAYS_BEFORE_MONTH month + (if (2 <? month) && is_leap year then 1 else 0).

(** year, month, day -> ordinal *)
Definition ymd2ord (year month day : Z) : Z :=
  days_before_year year + days_before_month year month + day.

Definition DI400Y : Z := 146097.
Definition DI100Y : Z := 36524.
Definition DI4Y : Z := 1461.

(** ordinal -> (year, month, day) *)
Definition ord2ymd (ordinal : Z) : Z * Z * Z :=
  let n := ordinal - 1 in
  let n400 := n / DI400Y in
  let n := n mod DI400Y in
  let year := n400 * 400 + 1 in
  let n100 := n / DI100Y in
  let n := n mod DI100Y in
  let n4 := n / DI4Y in
  let n := n mod DI4Y in
  let n1 := n / 365 in
  let n := n mod 365 in
  let year := year + n100 * 100 + n4 * 4 + n1 in
  if (n1 =? 4) || (n100 =? 4) then (year - 1, 12, 31)
  else
    let leapyear := (n1 =? 3) && (negb (n4 =? 24) || (n100 =? 3)) in
    let month := Z.shiftr (n + 50) 5 in
    let preceding :=
      DAYS_BEFORE_MONTH month + (if (2 <? month) && leapyear then 1 else 0) in
    if n <? preceding then
      let month := month - 1 in
      let preceding :=
        preceding
        - (DAYS_IN_MONTH month + (if (month =? 2) && leapyear then 1 else 0)) in
      (year, month, n - preceding + 1)
    else (year, month, n - preceding + 1).

(** A [datetime.datetime] (naive). *)
Record datetime : Type := mk_datetime {
  year : Z;
  month : Z;
  day : Z;
  hour : Z;
  minute : Z;
  second : Z;
  microsecond : Z
}.

(** The fields a [datetime] object can hold. *)
Definition valid_date (y m d : Z) : bool :=
  (MINYEAR <=? y) && (y <=? MAXYEAR) && (1 <=? m) && (m <=? 12)
  && (1 <=? d) && (d <=? days_in_month y m).

Definition valid (t : datetime) : bool :=
  valid_date (year t) (month t) (day t)
  && (0 <=? hour t) && (hour t <=? 23)
  && (0 <=? minute t) && (minute t <=? 59)
  && (0 <=? second t) && (second t <=? 59)
  && (0 <=? microsecond t) && (microsecond t <=? 999999).

(** [datetime(y, m, d, hh, mm, ss)], which checks its fields. *)
Definition datetime_of (y m d hh mm ss : Z) : result datetime :=
  let t := mk_datetime y m d hh mm ss 0 in
  if valid t then OK t else Raise ValueError.

Definition toordinal (t : datetime) : Z := ymd2ord (year t) (month t) (day t).

(** [t + timedelta(days=n)]: the constructor of [timedelta] refuses more than
    999999999 days, the sum refuses a day outside 0001-01-01 .. 9999-12-31;
    the time of day is kept. *)
Definition add_days (t : datetime) (n : Z) : result datetime :=
  if 999999999 <? Z.abs n then Raise OverflowError
  else
    let o := toordinal t + n in
    if (0 <? o) && (o <=? MAXORDINAL) then
      let '(y, m, d) := ord2ymd o in
      OK (mk_datetime y m d (hour t) (minute t) (second t) (microsecond t))
    else Raise OverflowError.

(** [t.strftime('%Y-%m-%d')]: the year with four digits, the month and the
    day with two, as the [datetime] module documents [%Y], [%m] and [%d]
    (the C library of some platforms prints a year below 1000 without its
    leading zeros; [strptime] would then refuse it). *)
Definition strftime_ymd (t : datetime) : string :=
  Str.zero_pad 4 (year t) ++ "-" ++ Str.zero_pad 2 (month t) ++ "-"
  ++ Str.zero_pad 2 (day t).

(** [datetime.strptime(s, '%Y-%m-%d')] on the zero-filled form
    [YYYY-MM-DD], the only form [strftime_ymd] produces for a date a
    [datetime] can hold; any other text is refused. *)
Definition strptime_ymd (s : string) : result datetime :=
  match s with
  | String y1 (String y2 (String y3 (String y4 (String sep1
      (String m1 (String m2 (String sep2
        (String d1 (String d2 EmptyString))))))))) =>
      let ys := String y1 (String y2 (String y3 (String y4 EmptyString))) in
      let ms := String m1 (String m2 EmptyString) in
      let ds := String d1 (String d2 EmptyString) in
      if Ascii.eqb sep1 "-" && Ascii.eqb sep2 "-"
         && Str.all_digits ys && Str.all_digits ms && Str.all_digits ds
      then
        datetime_of (Str.digits_value 0 ys) (Str.digits_value 0 ms)
          (Str.digits_value 0 ds) 0 0 0
      else Raise ValueError
  | _ => Raise ValueError
  end.

(** *** Helpers for the calendar proofs *)

(** The last steps of [ord2ymd]: month and day from the day of the year
    (counted from 0). *)
Definition month_day (n : Z) (leapyear : bool) : Z * Z :=
  let month := Z.shiftr (n + 50) 5 in
  let preceding :=
    DAYS_BEFORE_MONTH month + (if (2 <? month) && leapyear then 1 else 0) in
  if n <? preceding then
    let month := month - 1 in
    let preceding :=
      preceding
      - (DAYS_IN_MONTH month + (if (month =? 2) && leapyear then 1 else 0)) in
    (month, n - preceding + 1)
  else (month, n - preceding + 1).

(** The first steps of [ord2ymd], on [n0 = ordinal - 1]: the count of whole
    400-year, 100-year, 4-year cycles and single years, and the days left. *)
Definition cycles (n0 : Z) : Z * Z * Z * Z * Z :=
  let n400 := n0 / DI400Y in
  let r400 := n0 mod DI400Y in
  let n100 := r400 / DI100Y in
  let r100 := r400 mod DI100Y in
  let n4 := r100 / DI4Y in
  let r4 := r100 mod DI4Y in
  (n400, n100, n4, r4 / 365, r4 mod 365).

(** [f] holds of [base], [base + 1], ..., [base + width - 1]. *)
Fixpoint all_in (f : Z -> bool) (base : Z) (width : positive) : bool :=
  match width with
  | xH => f base
  | xO w => all_in f base w && all_in f (base + Z.pos w) w
  | xI w =>
      all_in f base w && all_in f (base + Z.pos w) w && f (base + Z.pos w~0)
  end.

Definition month_day_ok (leapyear : bool) (n : Z) : bool :=
  let (m, d) := month_day n leapyear in
  (1 <=? m) && (m <=? 12) && (1 <=? d)
  && (d <=? DAYS_IN_MONTH m + (if (m =? 2) && leapyear then 1 else 0))
  && (DAYS_BEFORE_MONTH m + (if (2 <? m) && leapyear then 1 else 0) + d
      =? n + 1).

(** [%04d] and [%02d] digit by digit. *)
Definition pad4_ok (n : Z) : bool :=
  String.eqb (Str.zero_pad 4 n)
    (String (Str.digit_char (n / 1000)) (String (Str.digit_char (n / 100))
      (String (Str.digit_char (n / 10)) (String (Str.digit_char n) "")))).

Definition pad2_ok (n : Z) : bool :=
  String.eqb (Str.zero_pad 2 n)
    (String (Str.digit_char (n / 10)) (String (Str.digit_char n) "")).

Definition midnight (t : datetime) : datetime :=
  mk_datetime (year t) (month t) (day t) 0 0 0 0.

End Cal.

(** ** The collaborators *)

(** The first six fields of a [time.struct_time], those [parse_date_string]
    reads. *)
Record struct_time : Type := mk_struct_time {
  tm_year : Z;
  tm_mon : Z;
  tm_mday : Z;
  tm_hour : Z;
  tm_min : Z;
  tm_sec : Z
}.

Record externals : Type := mk_externals {
  (** [datetime.now()] *)
  now : Cal.datetime;
  (** [parsedatetime.Calendar().parse(text, sourceTime=today.timetuple())]:
      the time found and the parse status, 0 when nothing was recognised;
      it reports through the status and does not raise *)
  calendar_parse : string -> Cal.datetime -> struct_time * Z;
  (** [dateutil.parser.parse(text, fuzzy=True, default=today)], which
      raises when it finds no date *)
  fuzzy_parse : string -> Cal.datetime -> result Cal.datetime;
  (** [ollama.chat(model='mistral', messages=[{role: user, content: prompt}])
      ['message']['content']], given the prompts of the earlier calls: the
      completer need not answer the same prompt twice alike *)
  chat : list string -> string -> result string;
  (** [json.loads] *)
  json_loads : string -> result pyval;
  (** [repr] of a [float], a [list] or a [dict] *)
  repr : pyval -> string
}.

(** ** app.py *)

Module App.

Import Str.

Definition dq : string := String (ascii_of_nat 34) EmptyString.

Definition nl : string := String (ascii_of_nat 10) EmptyString.

(** The text of the f-string of [build_prompt] before and after the query. *)
Definition prompt_head : string :=
  nl ++ "You are a flight booking assistant." ++ nl
  ++ nl
  ++ "Extract and return only JSON with the following keys:" ++ nl
  ++ "- from: departure city" ++ nl
  ++ "- to: arrival city" ++ nl
  ++ "- depdate: departure date (natural format like " ++ dq ++ "after 5 days"
  ++ dq ++ " allowed)" ++ nl
  ++ "- retdate: return date (optional)" ++ nl
  ++ "- adults: number of adults (default: 1)" ++ nl
  ++ "- children: number of children (default: 0)" ++ nl
  ++ "- infants: number of infants (default: 0)" ++ nl
  ++ "- cabin: cabin class like economy, business (default: economy)" ++ nl
  ++ "- airline_include: preferred airline if mentioned (e.g., " ++ dq
  ++ "by Indigo" ++ dq ++ ")" ++ nl
  ++ nl
  ++ "⚠️ Only assign a value if it is clearly mentioned in the query. " ++ nl
  ++ "If a field is missing, set its value to null or " ++ dq ++ "Not Provided"
  ++ dq ++ ",except:" ++ nl
  ++ "- Set " ++ dq ++ "adults" ++ dq ++ " to 1 by default" ++ nl
  ++ "- Set " ++ dq ++ "children" ++ dq ++ " and " ++ dq ++ "infants" ++ dq
  ++ " to 0 by default" ++ nl
  ++ "- Set " ++ dq ++ "cabin" ++ dq ++ " to " ++ dq ++ "economy" ++ dq
  ++ " by default" ++ nl
  ++ nl
  ++ "Return valid JSON only. Do not explain anything." ++ nl
  ++ nl
  ++ "Query: " ++ dq.

Definition prompt_tail : string := dq ++ nl.

(** The two regular expressions of the source. *)

(** [re.match(r'after (\d+) days?', s)]: the group, when the pattern matches
    at the start of [s].  The digits are taken greedily; giving one back
    would leave a digit where the space is wanted, and [s?] matches
    whether or not an [s] follows. *)
Definition match_after_days (s : string) : option string :=
  if starts_with "after " s then
    let (ds, rest) := span_digits (drop 6 s) in
    if negb (String.eqb ds "") && starts_with " day" rest then Some ds
    else None
  else None.

(** [re.search(r'after (\d+) days?', s)]: the group of the leftmost match. *)
Fixpoint search_after_days (s : string) : option string :=
  match match_after_days s with
  | Some g => Some g
  | None =>
      match s with
      | EmptyString => None
      | String _ r => search_after_days r
      end
  end.

Fixpoint from_first_open (s : string) : option string :=
  match s with
  | EmptyString => None
  | String c r => if Ascii.eqb c "{"%char then Some s else from_first_open r
  end.

Fixpoint upto_last_close (s : string) : option string :=
  match s with
  | EmptyString => None
  | String c r =>
      match upto_last_close r with
      | Some t => Some (String c t)
      | None =>
          if Ascii.eqb c "}"%char then Some (String c EmptyString) else None
      end
  end.

(** [re.search(r"\{.*\}", content, re.DOTALL)]: from the first opening brace
    to the last closing brace after it. *)
Definition search_json (content : string) : option string :=
  match from_first_open content with
  | Some t => upto_last_close t
  | None => None
  end.

(** Truth value of a variable that holds [None] or a [str]. *)
Definition opt_truthy (o : option string) : bool :=
  match o with
  | Some s => negb (String.eqb s "")
  | None => false
  end.

Definition MISSING : list string :=
  [""; "none"; "not provided"; "departure city (not provided)";
   "arrival city (not provided)"].

Definition Q_FROM : string := "✈️ Where are you flying *from*?".
Definition Q_TO : string := "🛬 Where are you flying *to*?".
Definition Q_DEPDATE : string := "📅 When do you want to *depart*?".

(** What lines 92 to 111 of [parse_query] compute. *)
Record fields : Type := mk_fields {
  depdate_raw : pyval;
  retdate_raw : pyval;
  depfrom : pyval;
  arrto : pyval;
  depdate : option string;
  retdate : option string;
  adults : Z;
  children : Z;
  infants : Z;
  cabin : string;
  airline : pyval
}.

Record segment : Type := mk_segment {
  seg_depfrom : pyval;
  seg_arrto : pyval;
  seg_depdate : option string
}.

Record payload : Type := mk_payload {
  p_adults : Z;
  p_children : Z;
  p_infants : Z;
  p_cabin : string;
  p_stops : bool;
  p_airline_include : pyval;
  p_ages : list pyval;
  p_segments : list segment
}.

(** The text of the [error] key: a literal of the source, or [str(e)] of the
    exception caught. *)
Inductive error_text : Type :=
| Literal (s : string)
| StrOf (e : exn).

(** What [parse_query] returns: the object given to [jsonify], and the HTTP
    status when the source states one. *)
Inductive response : Type :=
| Error (error : error_text) (code : Z)
| Incomplete (message : string) (missing_fields follow_up : list string)
    (parsed_from parsed_to parsed_depdate : pyval)
| Complete (p : payload).

(** The [status] key of a response. *)
Definition status (r : response) : option string :=
  match r with
  | Error _ _ => None
  | Incomplete _ _ _ _ _ _ => Some "incomplete"
  | Complete _ => Some "complete"
  end.

Section WithExternals.

Variable E : externals.

(** [str(v)] *)
Definition py_str (v : pyval) : string :=
  match v with
  | PyNone => "None"
  | PyBool true => "True"
  | PyBool false => "False"
  | PyInt n => of_int n
  | PyStr s => s
  | _ => repr E v
  end.

Definition build_prompt (query : pyval) : string :=
  prompt_head ++ py_str query ++ prompt_tail.

(** [int(match.group(1))] *)
Definition int_of_group (g : string) : result Z :=
  if INT_MAX_STR_DIGITS <? Z.of_nat (String.length g) then Raise ValueError
  else OK (digits_value 0 g).

(** [base_date or datetime.now()]; a [datetime] is never falsy. *)
Definition reference (base_date : option Cal.datetime) : Cal.datetime :=
  match base_date with
  | Some d => d
  | None => now E
  end.

Definition plus_days (today : Cal.datetime) (n : Z) : result (option string) :=
  d <- Cal.add_days today n ;;
  OK (Some (Cal.strftime_ymd d)).

Definition parse_date_string (natural_date : pyval)
    (base_date : option Cal.datetime) : result (option string) :=
  if negb (truthy natural_date) then OK None
  else
    match natural_date with
    | PyStr text =>
        let natural_date_lower := strip (lower text) in
        let today := reference base_date in
        if contains "day after tomorrow" natural_date_lower then
          plus_days today 2
        else if contains "tomorrow" natural_date_lower then
          plus_days today 1
        else
          match search_after_days natural_date_lower with
          | Some g =>
              days <- int_of_group g ;;
              plus_days today days
          | None =>
              let (time_struct, parse_status) :=
                calendar_parse E text today in
              if negb (parse_status =? 0) then
                d <- Cal.datetime_of (tm_year time_struct) (tm_mon time_struct)
                       (tm_mday time_struct) (tm_hour time_struct)
                       (tm_min time_struct) (tm_sec time_struct) ;;
                OK (Some (Cal.strftime_ymd d))
              else
                match fuzzy_parse E text today with
                | OK d => OK (Some (Cal.strftime_ymd d))
                | Raise _ => OK None
                end
          end
    | _ => Raise AttributeError
    end.

Definition is_missing (value : pyval) : bool :=
  match value with
  | PyNone => true
  | _ => mem (lower (strip (py_str value))) MISSING
  end.

(** Lines 98 to 101:
    [if city and word not in user_query.lower(): city = None] *)
Definition cross_check (word : string) (city user_query : pyval)
    : result pyval :=
  if truthy city then
    q <- py_lower user_query ;;
    if negb (contains word q) then OK PyNone else OK city
  else OK city.

(** Line 104 *)
Definition resolve_retdate (retdate_raw : pyval) (depdate : option string)
    : result (option string) :=
  if truthy retdate_raw && opt_truthy depdate then
    match depdate with
    | Some d =>
        base <- Cal.strptime_ymd d ;;
        parse_date_string retdate_raw (Some base)
    | None => Raise TypeError
    end
  else OK None.

(** Lines 92 to 111 *)
Definition gather (user_query parsed : pyval) : result fields :=
  depdate_raw <- py_get parsed "depdate" PyNone ;;
  retdate_raw <- py_get parsed "retdate" PyNone ;;
  depfrom <- py_get parsed "from" PyNone ;;
  arrto <- py_get parsed "to" PyNone ;;
  depfrom <- cross_check "from" depfrom user_query ;;
  arrto <- cross_check "to" arrto user_query ;;
  depdate <- (if truthy depdate_raw then parse_date_string depdate_raw None
              else OK None) ;;
  retdate <- resolve_retdate retdate_raw depdate ;;
  a <- py_get parsed "adults" (PyInt 1) ;;
  adults <- py_int a ;;
  c <- py_get parsed "children" (PyInt 0) ;;
  children <- py_int c ;;
  i <- py_get parsed "infants" (PyInt 0) ;;
  infants <- py_int i ;;
  cb <- py_get parsed "cabin" (PyStr "economy") ;;
  cabin <- py_lower cb ;;
  airline <- py_get parsed "airline_include" (PyStr "") ;;
  OK (mk_fields depdate_raw retdate_raw depfrom arrto depdate retdate
        adults children infants cabin airline).

(** One [if] of lines 117 to 125: both lists grow together, at their end. *)
Definition note (missing : bool) (name question : string)
    (lists : list string * list string) : list string * list string :=
  if missing then ((fst lists ++ [name])%list, (snd lists ++ [question])%list)
  else lists.

(** Lines 114 to 125: [(missing_fields, follow_up_questions)] *)
Definition enumerate_missing (f : fields) : list string * list string :=
  let lists := ([], []) in
  let lists := note (is_missing (depfrom f)) "from" Q_FROM lists in
  let lists := note (is_missing (arrto f)) "to" Q_TO lists in
  note (negb (truthy (depdate_raw f)) || negb (opt_truthy (depdate f)))
    "depdate" Q_DEPDATE lists.

(** Lines 141 to 163 *)
Definition build_payload (f : fields) : payload :=
  let outbound := mk_segment (depfrom f) (arrto f) (depdate f) in
  let segments :=
    if opt_truthy (retdate f) then
      ([outbound] ++ [mk_segment (arrto f) (depfrom f) (retdate f)])%list
    else [outbound] in
  mk_payload (adults f) (children f) (infants f) (cabin f) false (airline f)
    [] segments.

(** Lines 113 to 168 *)
Definition respond (f : fields) : response :=
  let (missing_fields, follow_up_questions) := enumerate_missing f in
  match missing_fields with
  | _ :: _ =>
      Incomplete ("Missing fields: " ++ join ", " missing_fields)
        missing_fields follow_up_questions (depfrom f) (arrto f)
        (if truthy (depdate_raw f) then depdate_raw f else PyNone)
  | [] => Complete (build_payload f)
  end.

(** Lines 85 to 168, given the outcome of the call to the completer. *)
Definition after_chat (user_query : pyval) (reply : result string)
    : result response :=
  text <- reply ;;
  let content := strip text in
  match search_json content with
  | None => OK (Error (Literal "Invalid JSON in model output") 500)
  | Some span =>
      parsed <- json_loads E span ;;
      f <- gather user_query parsed ;;
      OK (respond f)
  end.

(** The [try] block, lines 76 to 168.  [request_json] is the outcome of
    [request.get_json()]; [log] holds the prompts sent to the completer so
    far, and the prompts sent by the end are returned with the result. *)
Definition try_block (request_json : result pyval) (log : list string)
    : result response * list string :=
  match (data <- request_json ;; py_get data "query" PyNone) with
  | Raise e => (Raise e, log)
  | OK user_query =>
      if negb (truthy user_query) then
        (OK (Error (Literal "Missing 'query'") 400), log)
      else
        let prompt := build_prompt user_query in
        (after_chat user_query (chat E log prompt), (log ++ [prompt])%list)
  end.

(** The request reached line 92 with [user_query] and [parsed]: the body
    held a truthy query, the completer answered, braces were found in the
    answer and what they hold was decoded. *)
Definition extracted (request_json : result pyval) (log : list string)
    (user_query parsed : pyval) : Prop :=
  exists data text span,
    request_json = OK data
    /\ py_get data "query" PyNone = OK user_query
    /\ truthy user_query = true
    /\ chat E log (build_prompt user_query) = OK text
    /\ search_json (strip text) = Some span
    /\ json_loads E span = OK parsed.

(** The route [/parse]. *)
Definition parse_query (request_json : result pyval) (log : list string)
    : response * list string :=
  match try_block request_json log with
  | (OK r, log') => (r, log')
  | (Raise e, log') => (Error (StrOf e) 500, log')
  end.

End WithExternals.

End App.

(** ** Concrete collaborators, for running the pipeline *)

Module Scenario.

Import Str App.

(** Monday 15 January 2024, 09:30. *)
Definition clock : Cal.datetime := Cal.mk_datetime 2024 1 15 9 30 0 0.

Definition quoted (s : string) : string := dq ++ s ++ dq.

Definition simple_repr (v : pyval) : string :=
  match v with
  | PyList [] => "[]"
  | PyDict [] => "{}"
  | PyFloat (S754_zero false) => "0.0"
  | PyFloat (S754_zero true) => "-0.0"
  | _ => "[...]"
  end.

(** A completer that answers [reply] whatever the prompt, a JSON decoder that
    knows the one text [span] and decodes it to [obj], and two date parsers
    that recognise nothing. *)
Definition world (reply span : string) (obj : pyval) : externals :=
  {| now := clock;
     calendar_parse := fun _ _ => (mk_struct_time 2024 1 15 9 30 0, 0);
     fuzzy_parse := fun _ _ => Raise (External "ParserError");
     chat := fun _ _ => OK reply;
     json_loads := fun s =>
       if String.eqb s span then OK obj
       else Raise (External "JSONDecodeError");
     repr := simple_repr |}.

(** The same, with a fuzzy parser that reads one ISO date. *)
Definition world_iso (iso : string) (date : Cal.datetime)
    (reply span : string) (obj : pyval) : externals :=
  let w := world reply span obj in
  mk_externals (now w) (calendar_parse w)
    (fun s _ => if String.eqb s iso then OK date else fuzzy_parse w s clock)
    (chat w) (json_loads w) (repr w).

Definition request (query : string) : result pyval :=
  OK (PyDict [("query", PyStr query)]).

(** [{"from": "Delhi", "to": "Mumbai", "depdate": "after 5 days",
      "retdate": "after 3 days"}] *)
Definition round_trip_span : string :=
  "{" ++ quoted "from" ++ ": " ++ quoted "Delhi" ++ ", "
  ++ quoted "to" ++ ": " ++ quoted "Mumbai" ++ ", "
  ++ quoted "depdate" ++ ": " ++ quoted "after 5 days" ++ ", "
  ++ quoted "retdate" ++ ": " ++ quoted "after 3 days" ++ "}".

Definition round_trip_obj : pyval :=
  PyDict [("from", PyStr "Delhi"); ("to", PyStr "Mumbai");
          ("depdate", PyStr "after 5 days");
          ("retdate", PyStr "after 3 days")].

Definition round_trip_world : externals :=
  world ("Sure! " ++ round_trip_span ++ " Let me know.") round_trip_span
    round_trip_obj.

(** [{"from": null, "to": "Not Provided", "depdate": "sometime"}] *)
Definition vague_span : string :=
  "{" ++ quoted "from" ++ ": null, "
  ++ quoted "to" ++ ": " ++ quoted "Not Provided" ++ ", "
  ++ quoted "depdate" ++ ": " ++ quoted "sometime" ++ "}".

Definition vague_obj : pyval :=
  PyDict [("from", PyNone); ("to", PyStr "Not Provided");
          ("depdate", PyStr "sometime")].

Definition vague_world : externals := world vague_span vague_span vague_obj.

(** [{"from": 0, "to": false, "depdate": "tomorrow"}] *)
Definition zero_span : string :=
  "{" ++ quoted "from" ++ ": 0, " ++ quoted "to" ++ ": false, "
  ++ quoted "depdate" ++ ": " ++ quoted "tomorrow" ++ "}".

Definition zero_obj : pyval :=
  PyDict [("from", PyInt 0); ("to", PyBool false);
          ("depdate", PyStr "tomorrow")].

Definition zero_world : externals := world zero_span zero_span zero_obj.




(** A reply with an opening brace and no closing one after it. *)
Definition no_json_world : externals :=
  world "I could not } find { anything" "" PyNone.

(** A reply whose braces do not hold JSON. *)
Definition bad_json_world : externals :=
  world "Here: {from: Delhi}" "{}" (PyDict []).

(** The last day a [datetime] can hold. *)
Definition last_day : Cal.datetime := Cal.mk_datetime 9999 12 31 0 0 0 0.

(** [{"from": "Delhi", "to": "Mumbai", "depdate": "9999-12-31",
      "retdate": "tomorrow"}], with a fuzzy parser that reads the date. *)
Definition far_span : string :=
  "{" ++ quoted "from" ++ ": " ++ quoted "Delhi" ++ ", "
  ++ quoted "to" ++ ": " ++ quoted "Mumbai" ++ ", "
  ++ quoted "depdate" ++ ": " ++ quoted "9999-12-31" ++ ", "
  ++ quoted "retdate" ++ ": " ++ quoted "tomorrow" ++ "}".

Definition far_obj : pyval :=
  PyDict [("from", PyStr "Delhi"); ("to", PyStr "Mumbai");
          ("depdate", PyStr "9999-12-31"); ("retdate", PyStr "tomorrow")].

Definition far_world : externals :=
  world_iso "9999-12-31" last_day far_span far_span far_obj.

(** [{"from": "Delhi", "to": "Mumbai", "depdate": "tomorrow"}], for a query
    that names no departure city. *)
Definition guessed_span : string :=
  "{" ++ quoted "from" ++ ": " ++ quoted "Delhi" ++ ", "
  ++ quoted "to" ++ ": " ++ quoted "Mumbai" ++ ", "
  ++ quoted "depdate" ++ ": " ++ quoted "tomorrow" ++ "}".

Definition guessed_obj : pyval :=
  PyDict [("from", PyStr "Delhi"); ("to", PyStr "Mumbai");
          ("depdate", PyStr "tomorrow")].

Definition guessed_world : externals :=
  world guessed_span guessed_span guessed_obj.

(** The phrase "after N days", or "after N day". *)
Definition after_phrase (n : Z) (plural : bool) : string :=
  "after " ++ decimal n ++ " day" ++ (if plural then "s" else "").


(** The queries. *)
Definition round_trip_query : string :=
  "fly from Delhi to Mumbai after 5 days and return after 3 days".
Definition vague_query : string := "I want to fly somewhere sometime".
Definition bare_query : string := "Delhi - Mumbai, 1 adult".
Definition one_way_query : string := "fly to Mumbai tomorrow".
Definition far_query : string := "from Delhi to Mumbai on 9999-12-31".


Definition round_trip_payload : payload :=
  mk_payload 1 0 0 "economy" false (PyStr "") []
    [mk_segment (PyStr "Delhi") (PyStr "Mumbai") (Some "2024-01-20");
     mk_segment (PyStr "Mumbai") (PyStr "Delhi") (Some "2024-01-23")].

Definition vague_fields : fields :=
  mk_fields (PyStr "sometime") PyNone PyNone (PyStr "Not Provided") None None
    1 0 0 "economy" (PyStr "").

Definition guessed_fields : fields :=
  mk_fields (PyStr "tomorrow") PyNone PyNone (PyStr "Mumbai")
    (Some "2024-01-16") None 1 0 0 "economy" (PyStr "").

Definition zero_payload : payload :=
  mk_payload 1 0 0 "economy" false (PyStr "") []
    [mk_segment (PyInt 0) (PyBool false) (Some "2024-01-16")].

End Scenario.

(** * Properties *)

(** ** Strings *)

Module StrFacts.

Import Str.



Lemma append_assoc (a b c : string) : (a ++ b) ++ c = a ++ b ++ c.
Proof.
  induction a as [|x a IH]; simpl; [reflexivity | rewrite IH; reflexivity].
Qed.

Lemma append_nil_r (a : string) : a ++ "" = a.
Proof.
  induction a as [|x a IH]; simpl; [reflexivity | rewrite IH; reflexivity].
Qed.

End StrFacts.

(** ** The field validator *)

Module Validator.

Import Str App.

Section Facts.

Variable E : externals.


End Facts.

End Validator.

(** ** The error monad *)

Module ResultFacts.

Lemma bind_OK {A B : Type} (m : result A) (k : A -> result B) (b : B) :
  bind m k = OK b -> exists a, m = OK a /\ k a = OK b.
Proof.
  destruct m as [a | e]; simpl; intros H; [eauto | discriminate].
Qed.

Lemma bind_Raise {A B : Type} (m : result A) (k : A -> result B) (e : exn) :
  bind m k = Raise e ->
  m = Raise e \/ exists a, m = OK a /\ k a = Raise e.
Proof.
  destruct m as [a | e']; simpl; intros H; [right; eauto | left; congruence].
Qed.



End ResultFacts.

Ltac invert_bind H :=
  let x := fresh "x" in
  let Hx := fresh "Hx" in
  apply ResultFacts.bind_OK in H; destruct H as (x & Hx & H).

(** ** The calendar *)

Module CalFacts.

Import Cal.

Lemma all_in_spec (f : Z -> bool) (width : positive) :
  forall base, all_in f base width = true ->
  forall n, base <= n < base + Z.pos width -> f n = true.
Proof.
  induction width as [w IH | w IH |]; simpl; intros base H n Hn.
  - apply andb_true_iff in H. destruct H as [H H3].
    apply andb_true_iff in H. destruct H as [H1 H2].
    destruct (Z_lt_ge_dec n (base + Z.pos w)) as [Hlt | Hge].
    + apply (IH base H1). lia.
    + destruct (Z_lt_ge_dec n (base + Z.pos w~0)) as [Hlt' | Hge'].
      * apply (IH _ H2). lia.
      * replace n with (base + Z.pos w~0) by lia. exact H3.
  - apply andb_true_iff in H. destruct H as [H1 H2].
    destruct (Z_lt_ge_dec n (base + Z.pos w)) as [Hlt | Hge].
    + apply (IH base H1). lia.
    + apply (IH _ H2). lia.
  - replace n with base by lia. exact H.
Qed.

Lemma is_leap_iff (y : Z) :
  is_leap y = true <-> y mod 4 = 0 /\ (y mod 100 <> 0 \/ y mod 400 = 0).
Proof.
  unfold is_leap.
  rewrite andb_true_iff, orb_true_iff, negb_true_iff, Z.eqb_neq, !Z.eqb_eq.
  reflexivity.
Qed.

(** The year found by [ord2ymd] and the days left in it. *)
Lemma year_part (n0 : Z) :
  0 <= n0 < MAXORDINAL ->
  let '(n400, n100, n4, n1, r1) := cycles n0 in
  let y := n400 * 400 + 1 + n100 * 100 + n4 * 4 + n1 in
  0 <= r1 < 365 /\
  ((n1 =? 4) || (n100 =? 4) = true ->
     days_before_year (y - 1) + 366 = n0 + 1 /\ 1 <= y - 1 <= 9999 /\
     is_leap (y - 1) = true) /\
  ((n1 =? 4) || (n100 =? 4) = false ->
     days_before_year y + r1 = n0 /\ 1 <= y <= 9999 /\
     (is_leap y = true <->
      (n1 =? 3) && (negb (n4 =? 24) || (n100 =? 3)) = true)).
Proof.
  intros H. unfold cycles. cbv zeta.
  unfold MAXORDINAL, DI400Y, DI100Y, DI4Y, days_before_year in *.
  split; [Z.div_mod_to_equations; lia |].
  split; intros Hc.
  - apply orb_true_iff in Hc. rewrite !Z.eqb_eq in Hc.
    rewrite is_leap_iff.
    repeat split; try (Z.div_mod_to_equations; lia).
  - apply orb_false_iff in Hc. rewrite !Z.eqb_neq in Hc.
    rewrite is_leap_iff, andb_true_iff, orb_true_iff, negb_true_iff,
      Z.eqb_neq, !Z.eqb_eq.
    repeat split; try (Z.div_mod_to_equations; lia).
Qed.

Lemma ord2ymd_unfold (o : Z) :
  ord2ymd o =
  let '(n400, n100, n4, n1, r1) := cycles (o - 1) in
  let y := n400 * 400 + 1 + n100 * 100 + n4 * 4 + n1 in
  if (n1 =? 4) || (n100 =? 4) then (y - 1, 12, 31)
  else
    let (m, d) :=
      month_day r1 ((n1 =? 3) && (negb (n4 =? 24) || (n100 =? 3))) in
    (y, m, d).
Proof.
  unfold ord2ymd, month_day, cycles. cbv zeta.
  destruct (_ || _); [reflexivity |].
  destruct (_ <? _); reflexivity.
Qed.

Lemma month_day_checked (leapyear : bool) :
  all_in (month_day_ok leapyear) 0 365 = true.
Proof.
  destruct leapyear; vm_compute; reflexivity.
Qed.

Lemma month_part (n : Z) (leapyear : bool) :
  0 <= n < 365 ->
  let (m, d) := month_day n leapyear in
  1 <= m <= 12 /\ 1 <= d
  /\ d <= DAYS_IN_MONTH m + (if (m =? 2) && leapyear then 1 else 0)
  /\ DAYS_BEFORE_MONTH m + (if (2 <? m) && leapyear then 1 else 0) + d = n + 1.
Proof.
  intros Hn.
  pose proof (all_in_spec _ _ _ (month_day_checked leapyear) n) as H.
  unfold month_day_ok in H. destruct (month_day n leapyear) as [m d].
  specialize (H ltac:(lia)).
  repeat (apply andb_true_iff in H; destruct H as [H ?]).
  lia.
Qed.

(** Every ordinal of the range is the ordinal of the date [ord2ymd] gives,
    and that date is one a [datetime] can hold. *)
Lemma ymd2ord_ord2ymd (o : Z) :
  1 <= o <= MAXORDINAL ->
  let '(y, m, d) := ord2ymd o in
  valid_date y m d = true /\ ymd2ord y m d = o.
Proof.
  intros Ho. rewrite ord2ymd_unfold.
  pose proof (year_part (o - 1) ltac:(lia)) as Hy.
  destruct (cycles (o - 1)) as [[[[n400 n100] n4] n1] r1].
  cbv zeta in *. destruct Hy as (Hr & Hlast & Hother).
  remember (n400 * 400 + 1 + n100 * 100 + n4 * 4 + n1) as y eqn:Ey.
  clear Ey.
  destruct (_ || _) eqn:Hc.
  - destruct (Hlast eq_refl) as (Hd & Hy & Hleap).
    clear Hlast Hother.
    unfold valid_date, ymd2ord, days_before_month, MINYEAR, MAXYEAR.
    rewrite Hleap.
    change (days_in_month (y - 1) 12) with 31.
    split; [rewrite !andb_true_iff, !Z.leb_le | simpl]; lia.
  - destruct (Hother eq_refl) as (Hd & Hy & Hleap).
    clear Hlast Hother. apply eq_true_iff_eq in Hleap.
    remember ((n1 =? 3) && (negb (n4 =? 24) || (n100 =? 3))) as leapyear.
    pose proof (month_part r1 leapyear Hr) as Hm.
    destruct (month_day r1 leapyear) as [m d].
    unfold valid_date, ymd2ord, days_in_month, days_before_month,
      MINYEAR, MAXYEAR.
    rewrite Hleap. split.
    + rewrite !andb_true_iff, !Z.leb_le.
      destruct ((m =? 2) && leapyear) eqn:Hfeb.
      * apply andb_true_iff in Hfeb. destruct Hfeb as [Hfeb _].
        apply Z.eqb_eq in Hfeb. subst m. simpl in Hm. lia.
      * lia.
    + lia.
Qed.

Lemma days_before_year_succ (y : Z) :
  days_before_year (y + 1)
  = days_before_year y + 365 + (if is_leap y then 1 else 0).
Proof.
  destruct (is_leap y) eqn:Hl.
  - apply is_leap_iff in Hl. unfold days_before_year.
    Z.div_mod_to_equations. lia.
  - assert (Hn : ~ (y mod 4 = 0 /\ (y mod 100 <> 0 \/ y mod 400 = 0))).
    { rewrite <- is_leap_iff. congruence. }
    unfold days_before_year. Z.div_mod_to_equations. lia.
Qed.

Lemma days_before_year_mono (a b : Z) :
  a <= b -> days_before_year a <= days_before_year b.
Proof.
  intros H. unfold days_before_year. Z.div_mod_to_equations. lia.
Qed.

Lemma valid_date_inv (y m d : Z) :
  valid_date y m d = true ->
  1 <= y <= 9999 /\ 1 <= m <= 12 /\ 1 <= d <= days_in_month y m.
Proof.
  unfold valid_date, MINYEAR, MAXYEAR.
  rewrite !andb_true_iff, !Z.leb_le. lia.
Qed.

Ltac month_cases m Hm :=
  assert (m = 1 \/ m = 2 \/ m = 3 \/ m = 4 \/ m = 5 \/ m = 6 \/ m = 7
          \/ m = 8 \/ m = 9 \/ m = 10 \/ m = 11 \/ m = 12) as Hm by lia;
  repeat (destruct Hm as [Hm | Hm]); subst m.

Lemma day_le_31 (y m d : Z) : valid_date y m d = true -> d <= 31.
Proof.
  intros H. apply valid_date_inv in H. destruct H as (Hy & Hm & Hd).
  unfold days_in_month in Hd.
  month_cases m Hc; simpl in Hd; destruct (is_leap y); simpl in Hd; lia.
Qed.

(** The ordinals of the days of year [y] lie after those of the years
    before and not after those of year [y] itself. *)
Lemma ymd2ord_bounds (y m d : Z) :
  valid_date y m d = true ->
  days_before_year y < ymd2ord y m d <= days_before_year (y + 1).
Proof.
  intros H. apply valid_date_inv in H. destruct H as (Hy & Hm & Hd).
  rewrite days_before_year_succ.
  unfold ymd2ord, days_before_month, days_in_month in *.
  month_cases m Hc; simpl in *; destruct (is_leap y); simpl in *; lia.
Qed.

Lemma ymd2ord_range (y m d : Z) :
  valid_date y m d = true -> 1 <= ymd2ord y m d <= MAXORDINAL.
Proof.
  intros H. pose proof (ymd2ord_bounds y m d H) as Hb.
  apply valid_date_inv in H. destruct H as (Hy & _).
  pose proof (days_before_year_mono 1 y ltac:(lia)) as H1.
  pose proof (days_before_year_mono (y + 1) 10000 ltac:(lia)) as H2.
  change (days_before_year 1) with 0 in H1.
  change (days_before_year 10000) with MAXORDINAL in H2.
  lia.
Qed.

Lemma ymd2ord_inj (y m d y' m' d' : Z) :
  valid_date y m d = true -> valid_date y' m' d' = true ->
  ymd2ord y m d = ymd2ord y' m' d' -> (y, m, d) = (y', m', d').
Proof.
  intros H H' E.
  pose proof (ymd2ord_bounds y m d H) as Hb.
  pose proof (ymd2ord_bounds y' m' d' H') as Hb'.
  assert (Ey : y = y').
  { destruct (Z.lt_trichotomy y y') as [Hlt | [Heq | Hgt]]; [| exact Heq |].
    - pose proof (days_before_year_mono (y + 1) y' ltac:(lia)). lia.
    - pose proof (days_before_year_mono (y' + 1) y ltac:(lia)). lia. }
  subst y'. clear Hb Hb'.
  apply valid_date_inv in H. destruct H as (Hy & Hm & Hd).
  apply valid_date_inv in H'. destruct H' as (_ & Hm' & Hd').
  unfold ymd2ord, days_before_month, days_in_month in *.
  assert (Em : m = m').
  { month_cases m Hc; month_cases m' Hc'; simpl in *;
      destruct (is_leap y); simpl in *; lia. }
  subst m'. f_equal. lia.
Qed.

(** Every date a [datetime] can hold is the one [ord2ymd] gives for its
    ordinal. *)
Lemma ord2ymd_ymd2ord (y m d : Z) :
  valid_date y m d = true -> ord2ymd (ymd2ord y m d) = (y, m, d).
Proof.
  intros H.
  pose proof (ymd2ord_ord2ymd _ (ymd2ord_range y m d H)) as Ho.
  destruct (ord2ymd (ymd2ord y m d)) as [[y' m'] d'].
  destruct Ho as [Hv E]. apply ymd2ord_inj; assumption.
Qed.

(** *** Adding days *)

Lemma valid_inv (t : datetime) :
  valid t = true ->
  valid_date (year t) (month t) (day t) = true
  /\ 0 <= hour t <= 23 /\ 0 <= minute t <= 59 /\ 0 <= second t <= 59
  /\ 0 <= microsecond t <= 999999.
Proof.
  unfold valid. rewrite !andb_true_iff, !Z.leb_le. intuition lia.
Qed.

Lemma valid_intro (t : datetime) :
  valid_date (year t) (month t) (day t) = true ->
  0 <= hour t <= 23 -> 0 <= minute t <= 59 -> 0 <= second t <= 59 ->
  0 <= microsecond t <= 999999 -> valid t = true.
Proof.
  intros. unfold valid. rewrite !andb_true_iff, !Z.leb_le. intuition lia.
Qed.

Lemma toordinal_range (t : datetime) :
  valid t = true -> 1 <= toordinal t <= MAXORDINAL.
Proof.
  intros H. apply valid_inv in H. apply ymd2ord_range. tauto.
Qed.

(** While the day asked for is one of 0001-01-01 .. 9999-12-31, [add_days]
    gives the day whose ordinal is [n] more, at the same time of day. *)
Lemma add_days_spec (t : datetime) (n : Z) :
  valid t = true -> Z.abs n <= 999999999 ->
  1 <= toordinal t + n <= MAXORDINAL ->
  exists d, add_days t n = OK d /\ valid d = true
            /\ toordinal d = toordinal t + n
            /\ hour d = hour t /\ minute d = minute t
            /\ second d = second t /\ microsecond d = microsecond t.
Proof.
  intros Hv Hn Ho. unfold add_days.
  destruct (Z.ltb_spec 999999999 (Z.abs n)); [lia |].
  destruct (Z.ltb_spec 0 (toordinal t + n)); [| lia].
  destruct (Z.leb_spec (toordinal t + n) MAXORDINAL); [| lia].
  simpl. pose proof (ymd2ord_ord2ymd _ Ho) as Hr.
  destruct (ord2ymd (toordinal t + n)) as [[y m] d].
  destruct Hr as [Hd Ho']. eexists. split; [reflexivity |].
  apply valid_inv in Hv. simpl. repeat split; try tauto.
  apply valid_intro; simpl; tauto.
Qed.

(** Otherwise it raises [OverflowError]. *)
Lemma add_days_overflow (t : datetime) (n : Z) :
  999999999 < Z.abs n \/ toordinal t + n < 1 \/ MAXORDINAL < toordinal t + n ->
  add_days t n = Raise OverflowError.
Proof.
  intros H. unfold add_days.
  destruct (Z.ltb_spec 999999999 (Z.abs n)); [reflexivity |].
  destruct (Z.ltb_spec 0 (toordinal t + n)); [| reflexivity].
  destruct (Z.leb_spec (toordinal t + n) MAXORDINAL); [lia | reflexivity].
Qed.

Lemma add_days_zero (t : datetime) : valid t = true -> add_days t 0 = OK t.
Proof.
  intros Hv. pose proof (toordinal_range t Hv) as Hr. unfold add_days.
  simpl (999999999 <? Z.abs 0). cbv iota. rewrite Z.add_0_r.
  destruct (Z.ltb_spec 0 (toordinal t)); [| lia].
  destruct (Z.leb_spec (toordinal t) MAXORDINAL); [| lia].
  simpl. unfold toordinal. apply valid_inv in Hv.
  rewrite ord2ymd_ymd2ord by tauto. destruct t; reflexivity.
Qed.

End CalFacts.

(** ** Printing and reading dates *)

Module FormatFacts.

Import Str Cal.

Lemma digit_char_spec (k : Z) :
  is_digit (digit_char k) = true /\ digit_value (digit_char k) = k mod 10.
Proof.
  unfold digit_char.
  assert (H : 0 <= k mod 10 < 10) by (apply Z.mod_pos_bound; lia).
  assert (C : k mod 10 = 0 \/ k mod 10 = 1 \/ k mod 10 = 2 \/ k mod 10 = 3
              \/ k mod 10 = 4 \/ k mod 10 = 5 \/ k mod 10 = 6
              \/ k mod 10 = 7 \/ k mod 10 = 8 \/ k mod 10 = 9) by lia.
  repeat (destruct C as [C | C]); rewrite C; split; reflexivity.
Qed.

Lemma is_digit_inv (c : ascii) :
  is_digit c = true ->
  0 <= digit_value c <= 9 /\ digit_char (digit_value c) = c.
Proof.
  destruct c as [[] [] [] [] [] [] [] []]; intros H;
    try discriminate H; vm_compute; intuition congruence.
Qed.

Lemma pad4_checked : all_in pad4_ok 0 10000 = true.
Proof. vm_compute. reflexivity. Qed.

Lemma pad2_checked : all_in pad2_ok 0 100 = true.
Proof. vm_compute. reflexivity. Qed.

Lemma zero_pad_4 (n : Z) :
  0 <= n < 10000 ->
  zero_pad 4 n
  = String (digit_char (n / 1000)) (String (digit_char (n / 100))
      (String (digit_char (n / 10)) (String (digit_char n) ""))).
Proof.
  intros H. apply String.eqb_eq.
  apply (CalFacts.all_in_spec _ _ _ pad4_checked n). lia.
Qed.

Lemma zero_pad_2 (n : Z) :
  0 <= n < 100 ->
  zero_pad 2 n = String (digit_char (n / 10)) (String (digit_char n) "").
Proof.
  intros H. apply String.eqb_eq.
  apply (CalFacts.all_in_spec _ _ _ pad2_checked n). lia.
Qed.

Lemma strftime_ymd_shape (t : datetime) :
  valid_date (year t) (month t) (day t) = true ->
  strftime_ymd t
  = String (digit_char (year t / 1000)) (String (digit_char (year t / 100))
      (String (digit_char (year t / 10)) (String (digit_char (year t))
        (String "-" (String (digit_char (month t / 10))
          (String (digit_char (month t))
            (String "-" (String (digit_char (day t / 10))
              (String (digit_char (day t)) ""))))))))).
Proof.
  intros H. pose proof (CalFacts.day_le_31 _ _ _ H) as Hd'.
  apply CalFacts.valid_date_inv in H. destruct H as (Hy & Hm & Hd).
  unfold strftime_ymd.
  rewrite zero_pad_4, !zero_pad_2 by lia. reflexivity.
Qed.

(** Reading back what was printed gives the same day, at midnight. *)
Lemma strptime_strftime (t : datetime) :
  valid_date (year t) (month t) (day t) = true ->
  strptime_ymd (strftime_ymd t) = OK (midnight t).
Proof.
  intros H. rewrite strftime_ymd_shape by exact H.
  pose proof (CalFacts.valid_date_inv _ _ _ H) as (Hy & Hm & Hd).
  unfold strptime_ymd.
  cbn [Ascii.eqb Bool.eqb andb all_digits digits_value].
  rewrite !(proj1 (digit_char_spec _)), !(proj2 (digit_char_spec _)).
  cbn [andb].
  replace (10 * (10 * (10 * (10 * 0 + (year t / 1000) mod 10)
                        + (year t / 100) mod 10)
                  + (year t / 10) mod 10) + year t mod 10)
    with (year t) by (Z.div_mod_to_equations; lia).
  pose proof (CalFacts.day_le_31 _ _ _ H) as Hd'.
  replace (10 * (10 * 0 + (month t / 10) mod 10) + month t mod 10)
    with (month t) by (Z.div_mod_to_equations; lia).
  replace (10 * (10 * 0 + (day t / 10) mod 10) + day t mod 10)
    with (day t) by (Z.div_mod_to_equations; lia).
  unfold datetime_of, valid.
  cbn [year month day hour minute second microsecond].
  rewrite H. reflexivity.
Qed.






End FormatFacts.

(** ** Substrings and the two patterns *)

Module PatternFacts.

Import Str App.

Lemma contains_nil (w : string) : contains w "" = starts_with w "".
Proof. simpl. apply orb_false_r. Qed.

Lemma contains_cons (w : string) (c : ascii) (s : string) :
  contains w (String c s) = starts_with w (String c s) || contains w s.
Proof. reflexivity. Qed.

Lemma starts_with_app (p w s : string) :
  starts_with (p ++ w) s = true ->
  starts_with w (drop (String.length p) s) = true.
Proof.
  revert s. induction p as [|a p IH]; intros s; simpl; [auto |].
  destruct s as [|b s]; [discriminate |].
  intros H. apply andb_true_iff in H. apply IH. tauto.
Qed.

Lemma starts_with_contains (w s : string) :
  starts_with w s = true -> contains w s = true.
Proof.
  destruct s; simpl; intros ->; reflexivity.
Qed.

Lemma contains_drop (n : nat) (w s : string) :
  contains w (drop n s) = true -> contains w s = true.
Proof.
  revert s. induction n as [|n IH]; intros s; simpl; [auto |].
  destruct s as [|c s]; [auto |].
  intros H. rewrite contains_cons, (IH _ H). apply orb_true_r.
Qed.

(** A text that holds [p ++ w] holds [w]. *)
Lemma contains_suffix (p w s : string) :
  contains (p ++ w) s = true -> contains w s = true.
Proof.
  induction s as [|c s IH].
  - rewrite contains_nil. intros H. apply starts_with_app in H.
    apply (contains_drop (String.length p)), starts_with_contains, H.
  - rewrite !contains_cons. intros H. apply orb_true_iff in H.
    destruct H as [H | H].
    + apply starts_with_app in H.
      apply (contains_drop (String.length p) w (String c s)).
      apply starts_with_contains, H.
    + rewrite (IH H). apply orb_true_r.
Qed.

Lemma no_tomorrow_no_day_after (s : string) :
  contains "tomorrow" s = false -> contains "day after tomorrow" s = false.
Proof.
  intros H. destruct (contains "day after tomorrow" s) eqn:C; [| reflexivity].
  apply (contains_suffix "day after " "tomorrow") in C. congruence.
Qed.

Lemma span_digits_spec (s : string) :
  let (ds, rest) := span_digits s in
  s = ds ++ rest /\ all_digits ds = true.
Proof.
  induction s as [|c s IH]; simpl; [auto |].
  destruct (is_digit c) eqn:Hc; [| auto].
  destruct (span_digits s) as [ds rest]. destruct IH as [-> Hd].
  simpl. rewrite Hc, Hd. auto.
Qed.

Lemma starts_with_spec (p s : string) :
  starts_with p s = true <-> exists rest, s = p ++ rest.
Proof.
  revert s. induction p as [|a p IH]; intros s; simpl.
  - split; eauto.
  - destruct s as [|b s].
    + split; [discriminate | intros [rest H]; discriminate H].
    + rewrite andb_true_iff, Ascii.eqb_eq, IH. split.
      * intros [-> [rest ->]]. eauto.
      * intros [rest H]. injection H as -> ->. eauto.
Qed.

Lemma drop_app (p s : string) : drop (String.length p) (p ++ s) = s.
Proof.
  induction p as [|a p IH]; simpl; auto.
Qed.

(** What the pattern [after (\d+) days?] captures at the start of a text. *)
Lemma match_after_days_sound (s g : string) :
  match_after_days s = Some g ->
  all_digits g = true /\ g <> ""
  /\ exists rest, s = "after " ++ g ++ " day" ++ rest.
Proof.
  unfold match_after_days.
  destruct (starts_with "after " s) eqn:Ha; [| discriminate].
  apply starts_with_spec in Ha. destruct Ha as [r ->].
  change 6%nat with (String.length "after "). rewrite drop_app.
  pose proof (span_digits_spec r) as Hs.
  destruct (span_digits r) as [ds rest]. destruct Hs as [-> Hd].
  destruct (negb (ds =? "")%string && starts_with " day" rest) eqn:Hc;
    [| discriminate].
  intros [= <-]. apply andb_true_iff in Hc. destruct Hc as [Hne Hday].
  apply negb_true_iff, String.eqb_neq in Hne.
  apply starts_with_spec in Hday. destruct Hday as [rest' ->].
  repeat split; eauto.
Qed.

Lemma span_digits_stop (ds rest : string) :
  all_digits ds = true ->
  match rest with
  | String c _ => is_digit c = false
  | EmptyString => True
  end ->
  span_digits (ds ++ rest) = (ds, rest).
Proof.
  intros Hd Hr. induction ds as [|c ds IH]; simpl in *.
  - destruct rest as [|c r]; [reflexivity |]. simpl. rewrite Hr.
    reflexivity.
  - apply andb_true_iff in Hd. destruct Hd as [Hc Hd].
    rewrite Hc, (IH Hd). reflexivity.
Qed.

Lemma match_after_days_complete (g rest : string) :
  all_digits g = true -> g <> "" ->
  match_after_days ("after " ++ g ++ " day" ++ rest) = Some g.
Proof.
  intros Hd Hne. unfold match_after_days.
  change (starts_with "after " ("after " ++ g ++ " day" ++ rest))
    with (starts_with "" (g ++ " day" ++ rest)).
  change (drop 6 ("after " ++ g ++ " day" ++ rest))
    with (g ++ " day" ++ rest).
  simpl starts_with. rewrite span_digits_stop by (simpl; auto).
  apply String.eqb_neq in Hne. rewrite Hne. reflexivity.
Qed.

Lemma search_after_days_cons (c : ascii) (s : string) :
  search_after_days (String c s)
  = match match_after_days (String c s) with
    | Some g => Some g
    | None => search_after_days s
    end.
Proof. reflexivity. Qed.

Lemma search_after_days_sound (s g : string) :
  search_after_days s = Some g ->
  all_digits g = true /\ g <> ""
  /\ exists before rest, s = before ++ "after " ++ g ++ " day" ++ rest.
Proof.
  induction s as [|c s IH]; [discriminate |].
  rewrite search_after_days_cons.
  destruct (match_after_days (String c s)) eqn:Hm.
  - intros [= ->]. apply match_after_days_sound in Hm.
    destruct Hm as (? & ? & rest & ?). repeat split; auto.
    exists "", rest. assumption.
  - intros H. destruct (IH H) as (? & ? & before & rest & ->).
    repeat split; auto. exists (String c before), rest. reflexivity.
Qed.

(** A text that begins with the pattern is matched there. *)
Lemma search_after_days_complete (g rest : string) :
  all_digits g = true -> g <> "" ->
  search_after_days ("after " ++ g ++ " day" ++ rest) = Some g.
Proof.
  intros Hd Hne.
  change ("after " ++ g ++ " day" ++ rest)
    with (String "a" ("fter " ++ g ++ " day" ++ rest)).
  rewrite search_after_days_cons.
  change (String "a" ("fter " ++ g ++ " day" ++ rest))
    with ("after " ++ g ++ " day" ++ rest).
  rewrite match_after_days_complete by assumption. reflexivity.
Qed.

Lemma digits_value_nonneg (s : string) :
  forall acc, 0 <= acc -> all_digits s = true -> 0 <= digits_value acc s.
Proof.
  induction s as [|c s IH]; cbn [digits_value all_digits]; intros acc Ha Hd;
    [exact Ha |].
  apply andb_true_iff in Hd. destruct Hd as [Hc Hd].
  apply IH; [| exact Hd].
  apply FormatFacts.is_digit_inv in Hc. lia.
Qed.

(** The braces of [search_json]. *)

Lemma from_first_open_spec (s : string) :
  match from_first_open s with
  | Some t => exists before rest,
      s = before ++ t /\ t = String "{" rest /\ has_char "{" before = false
  | None => has_char "{" s = false
  end.
Proof.
  induction s as [|c s IH]; simpl; [reflexivity |].
  destruct (Ascii.eqb_spec c "{") as [-> | Hne].
  - exists "", s. auto.
  - destruct (from_first_open s) as [t |].
    + destruct IH as (before & rest & -> & -> & Hb).
      exists (String c before), rest. simpl.
      apply Ascii.eqb_neq in Hne. rewrite Hne, Hb. auto.
    + exact IH.
Qed.

Lemma upto_last_close_spec (s : string) :
  match upto_last_close s with
  | Some t => exists body rest,
      t = body ++ "}" /\ s = t ++ rest /\ has_char "}" rest = false
  | None => has_char "}" s = false
  end.
Proof.
  induction s as [|c s IH]; simpl; [reflexivity |].
  destruct (upto_last_close s) as [t |].
  - destruct IH as (body & rest & -> & -> & Hr).
    exists (String c body), rest. auto.
  - destruct (Ascii.eqb_spec c "}") as [-> | Hne].
    + exists "", s. auto.
    + simpl. exact IH.
Qed.

Lemma has_char_app (c : ascii) (a b : string) :
  has_char c (a ++ b) = has_char c a || has_char c b.
Proof.
  induction a as [|x a IH]; simpl; [reflexivity |].
  rewrite IH. apply orb_assoc.
Qed.

(** What follows any opening brace follows the first one. *)
Lemma first_open_suffix (before t b r : string) :
  has_char "{" before = false ->
  before ++ String "{" t = b ++ String "{" r ->
  exists x, String "{" t = x ++ String "{" r.
Proof.
  revert b. induction before as [|c before IH]; intros b Hb H.
  - exists b. exact H.
  - simpl in Hb. apply orb_false_iff in Hb. destruct Hb as [Hc Hb].
    destruct b as [|c' b]; simpl in H.
    + injection H as -> _. discriminate Hc.
    + injection H as _ H. exact (IH b Hb H).
Qed.

(** [search_json] finds the text from the first opening brace to the last
    closing brace after it. *)
Lemma search_json_Some (content span : string) :
  search_json content = Some span ->
  exists before body rest,
    content = before ++ span ++ rest
    /\ span = "{" ++ body ++ "}"
    /\ has_char "{" before = false
    /\ has_char "}" rest = false.
Proof.
  unfold search_json.
  pose proof (from_first_open_spec content) as Ho.
  destruct (from_first_open content) as [t |]; [| discriminate].
  destruct Ho as (before & r & -> & -> & Hb).
  pose proof (upto_last_close_spec (String "{" r)) as Hc.
  destruct (upto_last_close (String "{" r)) as [t |]; [| discriminate].
  destruct Hc as (body & rest & -> & Hr & Hn). intros [= <-].
  destruct body as [|c body]; [discriminate Hr |].
  injection Hr as <- Hr.
  exists before, body, rest. rewrite Hr. auto.
Qed.

(** It finds nothing exactly when no opening brace is followed, at any
    distance, by a closing one. *)
Lemma search_json_None (content : string) :
  search_json content = None <->
  ~ exists before body rest, content = before ++ "{" ++ body ++ "}" ++ rest.
Proof.
  split.
  - unfold search_json. intros H (b & body & rest & Hd).
    pose proof (from_first_open_spec content) as Ho.
    destruct (from_first_open content) as [t |].
    + destruct Ho as (before & r & E1 & -> & Hb).
      pose proof (upto_last_close_spec (String "{" r)) as Hc.
      rewrite H in Hc. rewrite E1 in Hd.
      destruct (first_open_suffix _ _ _ _ Hb Hd) as [x Hx].
      rewrite Hx in Hc.
      change (String "{" (body ++ "}" ++ rest))
        with ("{" ++ body ++ "}" ++ rest) in Hc.
      rewrite !has_char_app in Hc. simpl in Hc.
      rewrite !orb_true_r in Hc. discriminate Hc.
    + rewrite Hd, !has_char_app in Ho. simpl in Ho.
      rewrite orb_true_r in Ho. discriminate Ho.
  - intros H. destruct (search_json content) as [span |] eqn:Hs;
      [| reflexivity].
    contradiction H. apply search_json_Some in Hs.
    destruct Hs as (before & body & rest & -> & -> & _).
    exists before, body, rest. simpl.
    rewrite StrFacts.append_assoc. reflexivity.
Qed.

(** Trimming the answer does not change what [search_json] finds. *)

Lemma space_not_brace (c : ascii) :
  is_space c = true -> Ascii.eqb c "{" = false /\ Ascii.eqb c "}" = false.
Proof.
  intros H. split.
  - destruct (Ascii.eqb_spec c "{") as [-> |]; [discriminate H | reflexivity].
  - destruct (Ascii.eqb_spec c "}") as [-> |]; [discriminate H | reflexivity].
Qed.

Lemma all_space_no_brace (s : string) :
  all_space s = true -> from_first_open s = None /\ upto_last_close s = None.
Proof.
  induction s as [|c s IH]; simpl; [auto |].
  intros H. apply andb_true_iff in H. destruct H as [Hc Hs].
  destruct (IH Hs) as [-> ->].
  destruct (space_not_brace c Hc) as [-> ->]. auto.
Qed.

Lemma rstrip_step (c : ascii) (s : string) :
  rstrip (String c s)
  = if all_space (String c s) then "" else String c (rstrip s).
Proof. reflexivity. Qed.

Lemma from_first_open_lstrip (s : string) :
  from_first_open (lstrip s) = from_first_open s.
Proof.
  induction s as [|c s IH]; [reflexivity |]. simpl lstrip.
  destruct (is_space c) eqn:Hc; [| reflexivity].
  rewrite IH. simpl. destruct (space_not_brace c Hc) as [-> _]. reflexivity.
Qed.

Lemma upto_last_close_rstrip (s : string) :
  upto_last_close (rstrip s) = upto_last_close s.
Proof.
  induction s as [|c s IH]; [reflexivity |]. rewrite rstrip_step.
  destruct (all_space (String c s)) eqn:Ha.
  - symmetry. apply all_space_no_brace, Ha.
  - simpl. rewrite IH. reflexivity.
Qed.

Lemma from_first_open_rstrip (s : string) :
  from_first_open (rstrip s) = option_map rstrip (from_first_open s).
Proof.
  induction s as [|c s IH]; [reflexivity |]. rewrite rstrip_step.
  destruct (all_space (String c s)) eqn:Ha.
  - destruct (all_space_no_brace _ Ha) as [-> _]. reflexivity.
  - cbn [from_first_open]. destruct (Ascii.eqb c "{") eqn:Hc.
    + cbn [option_map]. rewrite rstrip_step, Ha. reflexivity.
    + exact IH.
Qed.

Lemma search_json_strip (s : string) : search_json (strip s) = search_json s.
Proof.
  unfold search_json, strip.
  rewrite from_first_open_rstrip, from_first_open_lstrip.
  destruct (from_first_open s) as [t |]; [| reflexivity].
  apply upto_last_close_rstrip.
Qed.

End PatternFacts.

(** ** Normal forms of phrases *)

Module NormalFacts.

Import Str App.

(** *** Lowercasing and trimming *)

Lemma lower_app (a b : string) : lower (a ++ b) = lower a ++ lower b.
Proof.
  induction a as [|c a IH]; simpl; [reflexivity | rewrite IH; reflexivity].
Qed.

Lemma digit_not_upper (c : ascii) : is_digit c = true -> lower_char c = c.
Proof.
  unfold is_digit, lower_char, is_upper. intros H.
  apply andb_true_iff in H. rewrite !Z.leb_le in H.
  destruct (Z.leb_spec 65 (code c)); [lia | reflexivity].
Qed.

Lemma lower_digits (s : string) : all_digits s = true -> lower s = s.
Proof.
  induction s as [|c s IH]; simpl; [reflexivity |].
  intros H. apply andb_true_iff in H. destruct H as [Hc Hs].
  rewrite (digit_not_upper c Hc), (IH Hs). reflexivity.
Qed.

Lemma all_space_app (a b : string) :
  all_space (a ++ b) = all_space a && all_space b.
Proof.
  induction a as [|c a IH]; simpl; [reflexivity |].
  rewrite IH. apply andb_assoc.
Qed.

Lemma rstrip_cons (c : ascii) (s : string) :
  rstrip (String c s)
  = if all_space (String c s) then "" else String c (rstrip s).
Proof. reflexivity. Qed.

(** A text that ends with a character other than a space is its own right
    trim. *)
Lemma rstrip_ends_nonspace (a : string) (c : ascii) :
  is_space c = false -> rstrip (a ++ String c "") = a ++ String c "".
Proof.
  intros Hc. induction a as [|x a IH].
  - simpl. rewrite Hc. reflexivity.
  - change (String x a ++ String c "") with (String x (a ++ String c "")).
    rewrite rstrip_cons, IH.
    change (String x (a ++ String c "")) with (String x a ++ String c "").
    rewrite all_space_app. simpl all_space at 2. rewrite Hc, andb_false_r.
    reflexivity.
Qed.

Lemma starts_with_lower (w s : string) :
  starts_with w s = true -> starts_with (lower w) (lower s) = true.
Proof.
  revert s. induction w as [|a w IH]; intros s; [reflexivity |].
  destruct s as [|b s]; simpl; [discriminate |].
  intros H. apply andb_true_iff in H. destruct H as [Hab Hw].
  apply Ascii.eqb_eq in Hab. subst b.
  rewrite Ascii.eqb_refl, (IH _ Hw). reflexivity.
Qed.

Lemma contains_lower (w s : string) :
  contains w s = true -> contains (lower w) (lower s) = true.
Proof.
  induction s as [|c s IH].
  - simpl. rewrite !orb_false_r. apply (starts_with_lower w "").
  - change (lower (String c s)) with (String (lower_char c) (lower s)).
    change (contains w (String c s))
      with (starts_with w (String c s) || contains w s).
    change (contains (lower w) (String (lower_char c) (lower s)))
      with (starts_with (lower w) (String (lower_char c) (lower s))
            || contains (lower w) (lower s)).
    intros H. apply orb_true_iff in H. apply orb_true_iff.
    destruct H as [H | H].
    + left. exact (starts_with_lower _ _ H).
    + right. exact (IH H).
Qed.

Lemma contains_lstrip (w s : string) (c : ascii) :
  is_space c = false ->
  contains (String c w) s = true -> contains (String c w) (lstrip s) = true.
Proof.
  intros Hc. induction s as [|x s IH]; [auto |].
  simpl lstrip. destruct (is_space x) eqn:Hx; [| auto].
  change (contains (String c w) (String x s))
    with (starts_with (String c w) (String x s) || contains (String c w) s).
  intros H. apply orb_true_iff in H. destruct H as [H | H]; [| exact (IH H)].
  simpl in H. apply andb_true_iff in H. destruct H as [H _].
  apply Ascii.eqb_eq in H. congruence.
Qed.

Lemma starts_with_not_all_space (w s : string) :
  w <> "" -> ends_nonspace w = true -> starts_with w s = true ->
  all_space s = false.
Proof.
  revert s. induction w as [|a w IH]; intros s Hne He Hs; [congruence |].
  destruct s as [|b s]; [discriminate Hs |].
  simpl in Hs. apply andb_true_iff in Hs. destruct Hs as [Hab Hs].
  apply Ascii.eqb_eq in Hab. subst b. simpl.
  destruct w as [|a' w].
  - simpl in He. apply negb_true_iff in He. rewrite He. reflexivity.
  - rewrite (IH s); [apply andb_false_r | discriminate | exact He | exact Hs].
Qed.

Lemma starts_with_rstrip (w s : string) :
  ends_nonspace w = true -> starts_with w s = true ->
  starts_with w (rstrip s) = true.
Proof.
  revert s. induction w as [|a w IH]; intros s He Hs; [reflexivity |].
  destruct s as [|b s]; [discriminate Hs |].
  rewrite rstrip_cons.
  rewrite (starts_with_not_all_space (String a w) (String b s));
    [| discriminate | exact He | exact Hs].
  simpl in Hs |- *. apply andb_true_iff in Hs. destruct Hs as [-> Hs].
  apply IH; [| exact Hs]. destruct w; [reflexivity | exact He].
Qed.

Lemma contains_rstrip (w s : string) :
  w <> "" -> ends_nonspace w = true ->
  contains w s = true -> contains w (rstrip s) = true.
Proof.
  intros Hne He. induction s as [|c s IH].
  - simpl. rewrite !orb_false_r. destruct w; [congruence | discriminate].
  - change (contains w (String c s))
      with (starts_with w (String c s) || contains w s).
    intros H. apply orb_true_iff in H. destruct H as [H | H].
    + apply PatternFacts.starts_with_contains, starts_with_rstrip; assumption.
    + rewrite rstrip_cons. destruct (all_space (String c s)) eqn:Ha.
      * specialize (IH H). simpl in Ha. apply andb_true_iff in Ha.
        destruct Ha as [_ Ha]. clear H. revert IH.
        assert (Hr : rstrip s = "").
        { destruct s as [|x s]; [reflexivity |].
          rewrite rstrip_cons, Ha. reflexivity. }
        rewrite Hr. auto.
      * rewrite PatternFacts.contains_cons, (IH H). apply orb_true_r.
Qed.

(** A phrase that contains a lowercase word contains it once lowercased
    and trimmed. *)
Lemma contains_normalized (w : string) (c : ascii) (text : string) :
  lower (String c w) = String c w -> is_space c = false ->
  ends_nonspace (String c w) = true ->
  contains (String c w) text = true ->
  contains (String c w) (strip (lower text)) = true.
Proof.
  intros Hl Hc He H. unfold strip.
  apply contains_rstrip; [discriminate | exact He |].
  apply contains_lstrip; [exact Hc |].
  rewrite <- Hl. apply contains_lower, H.
Qed.

(** *** Decimal numerals *)

Lemma decimal_aux_acc (fuel : nat) :
  forall n acc, decimal_aux fuel n acc = decimal_aux fuel n "" ++ acc.
Proof.
  induction fuel as [|fuel IH]; intros n acc; simpl; [reflexivity |].
  destruct (n <? 10); [reflexivity |].
  rewrite (IH (n / 10) (String (digit_char n) acc)),
    (IH (n / 10) (String (digit_char n) "")), StrFacts.append_assoc.
  reflexivity.
Qed.

Lemma digits_value_app (s1 s2 : string) :
  forall acc,
    digits_value acc (s1 ++ s2) = digits_value (digits_value acc s1) s2.
Proof.
  induction s1 as [|c s1 IH]; intros acc; [reflexivity |].
  exact (IH (10 * acc + digit_value c)).
Qed.

Lemma all_digits_app (s1 s2 : string) :
  all_digits (s1 ++ s2) = all_digits s1 && all_digits s2.
Proof.
  induction s1 as [|c s1 IH]; simpl; [reflexivity |].
  rewrite IH. apply andb_assoc.
Qed.

Lemma length_app (s1 s2 : string) :
  String.length (s1 ++ s2) = (String.length s1 + String.length s2)%nat.
Proof.
  induction s1 as [|c s1 IH]; simpl; [reflexivity | rewrite IH; reflexivity].
Qed.

Lemma decimal_aux_spec (fuel : nat) :
  forall n, 0 <= n < 2 ^ Z.of_nat fuel ->
    all_digits (decimal_aux fuel n "") = true
    /\ digits_value 0 (decimal_aux fuel n "") = n
    /\ (String.length (decimal_aux fuel n "") <= fuel)%nat.
Proof.
  induction fuel as [|fuel IH]; intros n Hn.
  - simpl in *. repeat split; [lia | constructor].
  - cbn [decimal_aux].
    destruct (FormatFacts.digit_char_spec n) as [Hd Hv].
    destruct (Z.ltb_spec n 10) as [Hlt | Hge].
    + cbn [all_digits digits_value String.length]. rewrite Hd, Hv.
      repeat split; [rewrite Z.mod_small; lia | lia].
    + rewrite decimal_aux_acc.
      assert (Hq : 0 <= n / 10 < 2 ^ Z.of_nat fuel).
      { rewrite Nat2Z.inj_succ, Z.pow_succ_r in Hn by lia.
        split; [apply Z.div_pos; lia |].
        apply Z.div_lt_upper_bound; lia. }
      destruct (IH _ Hq) as (Ha & Hval & Hlen).
      rewrite all_digits_app, digits_value_app, length_app, Ha, Hval.
      cbn [all_digits digits_value String.length]. rewrite Hd, Hv.
      repeat split; [Z.div_mod_to_equations; lia | lia].
Qed.

(** The decimal numeral of a natural number is a non-empty run of digits
    that spells it. *)
Lemma decimal_spec (n : Z) :
  0 <= n ->
  all_digits (decimal n) = true
  /\ digits_value 0 (decimal n) = n
  /\ decimal n <> ""
  /\ Z.of_nat (String.length (decimal n)) <= Z.log2 n + 1.
Proof.
  intros Hn. unfold decimal.
  assert (Hf : 0 <= n < 2 ^ Z.of_nat (S (Z.to_nat (Z.log2 n)))).
  { rewrite Nat2Z.inj_succ, Z2Nat.id by apply Z.log2_nonneg.
    destruct (Z.eq_dec n 0) as [-> | Hne]; [simpl; lia |].
    pose proof (Z.log2_spec n ltac:(lia)). lia. }
  destruct (decimal_aux_spec _ _ Hf) as (Ha & Hv & Hl).
  repeat split; try assumption.
  - cbn [decimal_aux]. destruct (n <? 10); [discriminate |].
    rewrite decimal_aux_acc.
    destruct (decimal_aux (Z.to_nat (Z.log2 n)) (n / 10) ""); simpl;
      discriminate.
  - rewrite <- (Z2Nat.id (Z.log2 n)) at 2 by apply Z.log2_nonneg. lia.
Qed.

End NormalFacts.

(** ** The date normalizer *)

Module Normalizer.

Import Str Cal App Scenario.

Lemma strftime_ymd_nonempty (t : datetime) : strftime_ymd t <> "".
Proof.
  unfold strftime_ymd. destruct (zero_pad 4 (year t)); discriminate.
Qed.

Lemma opt_truthy_strftime (t : datetime) :
  opt_truthy (Some (strftime_ymd t)) = true.
Proof.
  simpl. apply negb_true_iff, String.eqb_neq, strftime_ymd_nonempty.
Qed.

Section Facts.

Variable E : externals.

Lemma plus_days_OK (today d : datetime) (n : Z) :
  add_days today n = OK d ->
  plus_days today n = OK (Some (strftime_ymd d)).
Proof.
  intros H. unfold plus_days. rewrite H. reflexivity.
Qed.

Lemma plus_days_Raise (today : datetime) (n : Z) (e : exn) :
  add_days today n = Raise e -> plus_days today n = Raise e.
Proof.
  intros H. unfold plus_days. rewrite H. reflexivity.
Qed.

Lemma plus_days_truthy (today : datetime) (n : Z) (o : option string) :
  plus_days today n = OK o -> opt_truthy o = true.
Proof.
  unfold plus_days. intros H. invert_bind H. injection H as <-.
  apply opt_truthy_strftime.
Qed.

(** What [parse_date_string] returns is [None] or a non-empty text. *)
Lemma parse_date_string_truthy (v : pyval) (base : option datetime)
    (o : option string) :
  parse_date_string E v base = OK o -> o = None \/ opt_truthy o = true.
Proof.
  unfold parse_date_string.
  destruct (negb (truthy v)); [intros [= <-]; auto |].
  destruct v; try discriminate.
  destruct (contains "day after tomorrow" _);
    [intros H; right; exact (plus_days_truthy _ _ _ H) |].
  destruct (contains "tomorrow" _);
    [intros H; right; exact (plus_days_truthy _ _ _ H) |].
  destruct (search_after_days _).
  - intros H. invert_bind H. right. exact (plus_days_truthy _ _ _ H).
  - destruct (calendar_parse E s _) as [ts st].
    destruct (negb (st =? 0)).
    + intros H. invert_bind H. injection H as <-. right.
      apply opt_truthy_strftime.
    + destruct (fuzzy_parse E s _); intros [= <-]; [right | left; auto].
      apply opt_truthy_strftime.
Qed.

Lemma normal_form_nonempty (w text : string) :
  contains w (strip (lower text)) = true -> w <> "" ->
  truthy (PyStr text) = true.
Proof.
  destruct text; [| reflexivity].
  destruct w; [congruence | discriminate].
Qed.

Lemma parse_day_after_tomorrow (text : string)
    (base_date : option datetime) :
  contains "day after tomorrow" (strip (lower text)) = true ->
  parse_date_string E (PyStr text) base_date
  = plus_days (reference E base_date) 2.
Proof.
  intros Hc.
  assert (Ht : truthy (PyStr text) = true)
    by (apply (normal_form_nonempty _ _ Hc); discriminate).
  unfold parse_date_string. rewrite Ht. cbn [negb]. rewrite Hc. reflexivity.
Qed.

Lemma parse_tomorrow (text : string) (base_date : option datetime) :
  contains "tomorrow" (strip (lower text)) = true ->
  contains "day after tomorrow" (strip (lower text)) = false ->
  parse_date_string E (PyStr text) base_date
  = plus_days (reference E base_date) 1.
Proof.
  intros Hc Hn.
  assert (Ht : truthy (PyStr text) = true)
    by (apply (normal_form_nonempty _ _ Hc); discriminate).
  unfold parse_date_string. rewrite Ht. cbn [negb]. rewrite Hn, Hc.
  reflexivity.
Qed.

Lemma parse_after_days (text : string) (base_date : option datetime)
    (digits : string) :
  contains "tomorrow" (strip (lower text)) = false ->
  search_after_days (strip (lower text)) = Some digits ->
  Z.of_nat (String.length digits) <= INT_MAX_STR_DIGITS ->
  parse_date_string E (PyStr text) base_date
  = plus_days (reference E base_date) (digits_value 0 digits).
Proof.
  intros Hn Hs Hlen.
  assert (Ht : truthy (PyStr text) = true).
  { destruct text; [discriminate Hs | reflexivity]. }
  unfold parse_date_string. rewrite Ht. cbn [negb].
  rewrite (PatternFacts.no_tomorrow_no_day_after _ Hn), Hn, Hs.
  unfold int_of_group.
  destruct (Z.ltb_spec INT_MAX_STR_DIGITS (Z.of_nat (String.length digits)));
    [lia | reflexivity].
Qed.

(** C4, as amended.  For a reference date [R] (the [base_date], or now) and
    a phrase whose lowercased, trimmed form contains "day after tomorrow",
    the result is the print of [R] + 2 days; when it contains "tomorrow" and
    not "day after tomorrow", of [R] + 1 day; whatever else the phrase holds
    and whatever the general and the fuzzy parser would make of it.  That
    is so while the day asked for is not after 9999-12-31. *)
Theorem tomorrow_rules (text : string) (base_date : option datetime) :
  let phrase := strip (lower text) in
  let R := reference E base_date in
  valid R = true ->
  (contains "day after tomorrow" phrase = true ->
   toordinal R + 2 <= MAXORDINAL ->
   exists d, add_days R 2 = OK d /\ valid d = true
     /\ toordinal d = toordinal R + 2
     /\ parse_date_string E (PyStr text) base_date
        = OK (Some (strftime_ymd d)))
  /\
  (contains "tomorrow" phrase = true ->
   contains "day after tomorrow" phrase = false ->
   toordinal R + 1 <= MAXORDINAL ->
   exists d, add_days R 1 = OK d /\ valid d = true
     /\ toordinal d = toordinal R + 1
     /\ parse_date_string E (PyStr text) base_date
        = OK (Some (strftime_ymd d))).
Proof.
  intros phrase R Hv. pose proof (CalFacts.toordinal_range R Hv) as Hr.
  split.
  - intros Hc Ho. rewrite (parse_day_after_tomorrow _ _ Hc). fold R.
    destruct (CalFacts.add_days_spec R 2 Hv) as (d & Hd & Hvd & Hord & _);
      [simpl; lia | lia |].
    exists d. rewrite (plus_days_OK _ _ _ Hd). auto.
  - intros Hc Hn Ho. rewrite (parse_tomorrow _ _ Hc Hn). fold R.
    destruct (CalFacts.add_days_spec R 1 Hv) as (d & Hd & Hvd & Hord & _);
      [simpl; lia | lia |].
    exists d. rewrite (plus_days_OK _ _ _ Hd). auto.
Qed.

(** Past 9999-12-31 the two rules raise [OverflowError]. *)
Lemma tomorrow_overflow (text : string) (base_date : option datetime) :
  let phrase := strip (lower text) in
  let R := reference E base_date in
  (contains "day after tomorrow" phrase = true ->
   MAXORDINAL < toordinal R + 2 ->
   parse_date_string E (PyStr text) base_date = Raise OverflowError)
  /\
  (contains "tomorrow" phrase = true ->
   contains "day after tomorrow" phrase = false ->
   MAXORDINAL < toordinal R + 1 ->
   parse_date_string E (PyStr text) base_date = Raise OverflowError).
Proof.
  intros phrase R. split.
  - intros Hc Ho. rewrite (parse_day_after_tomorrow _ _ Hc).
    apply plus_days_Raise, CalFacts.add_days_overflow. fold R. lia.
  - intros Hc Hn Ho. rewrite (parse_tomorrow _ _ Hc Hn).
    apply plus_days_Raise, CalFacts.add_days_overflow. fold R. lia.
Qed.


(** Past 999999999 days or past 9999-12-31 the rule raises
    [OverflowError]. *)
Lemma after_days_overflow (text : string) (base_date : option datetime)
    (digits : string) :
  let phrase := strip (lower text) in
  let R := reference E base_date in
  let N := digits_value 0 digits in
  contains "tomorrow" phrase = false ->
  search_after_days phrase = Some digits ->
  Z.of_nat (String.length digits) <= INT_MAX_STR_DIGITS ->
  999999999 < N \/ MAXORDINAL < toordinal R + N ->
  parse_date_string E (PyStr text) base_date = Raise OverflowError.
Proof.
  intros phrase R N Hn Hs Hlen Hbig.
  destruct (PatternFacts.search_after_days_sound _ _ Hs) as (Hd & Hne & _).
  assert (HN : 0 <= N)
    by (apply PatternFacts.digits_value_nonneg; [lia | exact Hd]).
  rewrite (parse_after_days _ _ _ Hn Hs Hlen). fold R. fold N.
  apply plus_days_Raise, CalFacts.add_days_overflow. lia.
Qed.

(** *** The phrases "after N days" and "after N day" as they are written *)

Lemma digit_not_t (c : ascii) : is_digit c = true -> Ascii.eqb "t" c = false.
Proof.
  intros H. destruct (Ascii.eqb_spec "t" c) as [<- |];
    [discriminate H | reflexivity].
Qed.

Lemma starts_with_cons (a b : ascii) (p s : string) :
  starts_with (String a p) (String b s) = Ascii.eqb a b && starts_with p s.
Proof. reflexivity. Qed.

Lemma no_tomorrow_in_digits (ds tail : string) :
  all_digits ds = true -> contains "tomorrow" tail = false ->
  contains "tomorrow" (ds ++ tail) = false.
Proof.
  intros Hd Ht. induction ds as [|c ds IH]; [exact Ht |].
  simpl in Hd. apply andb_true_iff in Hd. destruct Hd as [Hc Hd].
  change (String c ds ++ tail) with (String c (ds ++ tail)).
  rewrite PatternFacts.contains_cons, (IH Hd), orb_false_r.
  change "tomorrow" with (String "t" "omorrow").
  rewrite starts_with_cons, (digit_not_t c Hc). reflexivity.
Qed.

Lemma after_phrase_normal (n : Z) (plural : bool) :
  0 <= n ->
  strip (lower (after_phrase n plural)) = after_phrase n plural
  /\ contains "tomorrow" (after_phrase n plural) = false
  /\ search_after_days (after_phrase n plural) = Some (decimal n).
Proof.
  intros Hn. destruct (NormalFacts.decimal_spec n Hn) as (Hd & _ & Hne & _).
  split; [| unfold after_phrase; split].
  - assert (Hl : lower (after_phrase n plural) = after_phrase n plural).
    { unfold after_phrase.
      rewrite NormalFacts.lower_app, NormalFacts.lower_app,
        (NormalFacts.lower_digits _ Hd).
      destruct plural; reflexivity. }
    assert (Hshape : exists a d,
               is_space d = false
               /\ after_phrase n plural = String "a" (a ++ String d "")).
    { unfold after_phrase. destruct plural.
      - exists ("fter " ++ decimal n ++ " day"), "s"%char.
        split; [reflexivity |]. simpl. rewrite StrFacts.append_assoc.
        reflexivity.
      - exists ("fter " ++ decimal n ++ " da"), "y"%char.
        split; [reflexivity |]. simpl. rewrite StrFacts.append_assoc.
        reflexivity. }
    rewrite Hl. destruct Hshape as (a & d & Hd' & ->).
    unfold strip. cbn [lstrip]. change (is_space "a") with false. cbv iota.
    change (String "a" (a ++ String d "")) with (String "a" a ++ String d "").
    apply NormalFacts.rstrip_ends_nonspace, Hd'.
  - change ("after " ++ decimal n ++ " day" ++ (if plural then "s" else ""))
      with (String "a" (String "f" (String "t" (String "e" (String "r"
             (String " " (decimal n ++ " day"
                          ++ (if plural then "s" else "")))))))).
    rewrite !PatternFacts.contains_cons.
    rewrite no_tomorrow_in_digits;
      [reflexivity | exact Hd | destruct plural; reflexivity].
  - apply PatternFacts.search_after_days_complete; assumption.
Qed.

(** Written as it is, "after N days" gives [R] + [N] days. *)
Lemma after_n_days (n : Z) (plural : bool) (base_date : option datetime) :
  let R := reference E base_date in
  0 <= n <= 999999999 ->
  valid R = true ->
  toordinal R + n <= MAXORDINAL ->
  exists d, add_days R n = OK d /\ valid d = true
    /\ toordinal d = toordinal R + n
    /\ parse_date_string E (PyStr (after_phrase n plural)) base_date
       = OK (Some (strftime_ymd d)).
Proof.
  intros R Hn Hv Ho.
  destruct (after_phrase_normal n plural (proj1 Hn)) as (Hnorm & Hnt & Hs).
  destruct (NormalFacts.decimal_spec n (proj1 Hn)) as (_ & Hval & _ & Hlen).
  pose proof (Z.log2_le_mono n 999999999 (proj2 Hn)) as Hlog.
  change (Z.log2 999999999) with 29 in Hlog.
  pose proof (CalFacts.toordinal_range R Hv) as Hr.
  rewrite (parse_after_days (after_phrase n plural) base_date (decimal n));
    [| rewrite Hnorm; exact Hnt | rewrite Hnorm; exact Hs
     | unfold INT_MAX_STR_DIGITS; lia].
  rewrite Hval. fold R.
  destruct (CalFacts.add_days_spec R n Hv) as (d & Hadd & Hvd & Hord & _);
    [lia | lia |].
  exists d. rewrite (plus_days_OK _ _ _ Hadd). auto.
Qed.

(** A phrase that contains "tomorrow" as written contains it once
    lowercased and trimmed; so for "day after tomorrow". *)
Lemma tomorrow_as_written (text : string) :
  (contains "tomorrow" text = true ->
   contains "tomorrow" (strip (lower text)) = true)
  /\ (contains "day after tomorrow" text = true ->
      contains "day after tomorrow" (strip (lower text)) = true).
Proof.
  split; apply NormalFacts.contains_normalized; reflexivity.
Qed.


End Facts.

End Normalizer.

(** ** The pipeline *)

Module Pipeline.

Import Str Cal App.

Section Facts.

Variable E : externals.

(** *** From the request to the fields *)

Lemma parse_query_extracted (request_json : result pyval) (log : list string)
    (user_query parsed : pyval) :
  extracted E request_json log user_query parsed ->
  parse_query E request_json log
  = (match gather E user_query parsed with
     | OK f => respond E f
     | Raise e => Error (StrOf e) 500
     end, (log ++ [build_prompt E user_query])%list).
Proof.
  intros (data & text & span & -> & Hq & Ht & Hc & Hs & Hj).
  unfold parse_query, try_block. simpl bind. rewrite Hq, Ht. cbn [negb].
  unfold after_chat. rewrite Hc. simpl bind. rewrite Hs, Hj. simpl bind.
  destruct (gather E user_query parsed); reflexivity.
Qed.

(** A response with a [status] key comes from [respond]. *)
Lemma parse_query_status (request_json : result pyval) (log log' : list string)
    (r : response) :
  parse_query E request_json log = (r, log') ->
  status r <> None ->
  exists user_query parsed f,
    extracted E request_json log user_query parsed
    /\ gather E user_query parsed = OK f
    /\ r = respond E f
    /\ log' = (log ++ [build_prompt E user_query])%list.
Proof.
  unfold parse_query, try_block. intros H Hst.
  destruct request_json as [data | e];
    [| injection H as <- <-; contradiction Hst; reflexivity].
  simpl bind in H.
  destruct (py_get data "query" PyNone) as [uq | e] eqn:Hq;
    [| injection H as <- <-; contradiction Hst; reflexivity].
  destruct (truthy uq) eqn:Ht; cbn [negb] in H;
    [| injection H as <- <-; contradiction Hst; reflexivity].
  unfold after_chat in H.
  destruct (chat E log (build_prompt E uq)) as [text | e] eqn:Hc;
    [| injection H as <- <-; contradiction Hst; reflexivity].
  simpl bind in H.
  destruct (search_json (strip text)) as [span |] eqn:Hs;
    [| injection H as <- <-; contradiction Hst; reflexivity].
  destruct (json_loads E span) as [parsed | e] eqn:Hj;
    [| injection H as <- <-; contradiction Hst; reflexivity].
  simpl bind in H.
  destruct (gather E uq parsed) as [f | e] eqn:Hg;
    [| injection H as <- <-; contradiction Hst; reflexivity].
  simpl bind in H. injection H as <- <-.
  exists uq, parsed, f. repeat split; auto.
  exists data, text, span. repeat split; assumption.
Qed.

Lemma gather_inv (user_query parsed : pyval) (f : fields) :
  gather E user_query parsed = OK f ->
  exists items,
    parsed = PyDict items
    /\ depdate_raw f = get_default items "depdate" PyNone
    /\ retdate_raw f = get_default items "retdate" PyNone
    /\ cross_check "from" (get_default items "from" PyNone) user_query
       = OK (depfrom f)
    /\ cross_check "to" (get_default items "to" PyNone) user_query
       = OK (arrto f)
    /\ (if truthy (depdate_raw f)
        then parse_date_string E (depdate_raw f) None
        else OK None) = OK (depdate f)
    /\ resolve_retdate E (retdate_raw f) (depdate f) = OK (retdate f)
    /\ py_int (get_default items "adults" (PyInt 1)) = OK (adults f)
    /\ py_int (get_default items "children" (PyInt 0)) = OK (children f)
    /\ py_int (get_default items "infants" (PyInt 0)) = OK (infants f)
    /\ py_lower (get_default items "cabin" (PyStr "economy")) = OK (cabin f)
    /\ airline f = get_default items "airline_include" (PyStr "").
Proof.
  unfold gather. destruct parsed; try discriminate.
  unfold py_get. simpl bind. intros H.
  do 8 invert_bind H. injection H as <-.
  exists items. cbn [depdate_raw retdate_raw depfrom arrto depdate retdate
                    adults children infants cabin airline].
  repeat split; assumption.
Qed.


(** The dates among the fields are [None] or non-empty texts. *)
Lemma gather_dates (user_query parsed : pyval) (f : fields) :
  gather E user_query parsed = OK f ->
  (depdate f = None \/ opt_truthy (depdate f) = true)
  /\ (retdate f = None \/ opt_truthy (retdate f) = true).
Proof.
  intros H. apply gather_inv in H.
  destruct H as (items & _ & _ & _ & _ & _ & Hd & Hr & _). split.
  - destruct (truthy (depdate_raw f)).
    + exact (Normalizer.parse_date_string_truthy E _ _ _ Hd).
    + injection Hd as <-. auto.
  - unfold resolve_retdate in Hr.
    destruct (truthy (retdate_raw f) && opt_truthy (depdate f)).
    + destruct (depdate f); [| discriminate]. invert_bind Hr.
      exact (Normalizer.parse_date_string_truthy E _ _ _ Hr).
    + injection Hr as <-. auto.
Qed.

Lemma opt_truthy_is_some (o : option string) :
  o = None \/ opt_truthy o = true ->
  opt_truthy o = match o with Some _ => true | None => false end.
Proof.
  intros [-> | H]; [reflexivity |]. destruct o; [exact H | discriminate].
Qed.

(** *** The missing fields *)

Lemma enumerate_missing_spec (f : fields) :
  enumerate_missing E f
  = ((if is_missing E (depfrom f) then ["from"] else [])
     ++ (if is_missing E (arrto f) then ["to"] else [])
     ++ (if negb (truthy (depdate_raw f)) || negb (opt_truthy (depdate f))
         then ["depdate"] else []),
     (if is_missing E (depfrom f) then [Q_FROM] else [])
     ++ (if is_missing E (arrto f) then [Q_TO] else [])
     ++ (if negb (truthy (depdate_raw f)) || negb (opt_truthy (depdate f))
         then [Q_DEPDATE] else []))%list.
Proof.
  unfold enumerate_missing, note.
  destruct (is_missing E (depfrom f)), (is_missing E (arrto f)),
    (negb (truthy (depdate_raw f)) || negb (opt_truthy (depdate f)));
    reflexivity.
Qed.

(** C2.  The fields [from], [to], [depdate] are examined in that order:
    [from] (resp. [to]) is missing exactly when [is_missing] holds of its
    value after the cross-check, [depdate] exactly when the raw phrase is
    falsy or its normalization gave [None].  When one is missing the
    response has status "incomplete" and lists the names and the questions
    in that order; when all three are, the names are from, to, depdate. *)
Theorem missing_enumeration (request_json : result pyval) (log : list string)
    (user_query parsed : pyval) (f : fields) :
  extracted E request_json log user_query parsed ->
  gather E user_query parsed = OK f ->
  let from_missing := is_missing E (depfrom f) in
  let to_missing := is_missing E (arrto f) in
  let depdate_missing :=
    negb (truthy (depdate_raw f))
    || match depdate f with None => true | Some _ => false end in
  let missing :=
    ((if from_missing then ["from"] else [])
     ++ (if to_missing then ["to"] else [])
     ++ (if depdate_missing then ["depdate"] else []))%list in
  let questions :=
    ((if from_missing then [Q_FROM] else [])
     ++ (if to_missing then [Q_TO] else [])
     ++ (if depdate_missing then [Q_DEPDATE] else []))%list in
  enumerate_missing E f = (missing, questions)
  /\ (missing <> [] ->
      fst (parse_query E request_json log)
      = Incomplete ("Missing fields: " ++ join ", " missing) missing questions
          (depfrom f) (arrto f)
          (if truthy (depdate_raw f) then depdate_raw f else PyNone)
      /\ status (fst (parse_query E request_json log)) = Some "incomplete")
  /\ (from_missing = true -> to_missing = true -> depdate_missing = true ->
      missing = ["from"; "to"; "depdate"]).
Proof.
  intros Hx Hg from_missing to_missing depdate_missing missing questions.
  assert (He : enumerate_missing E f = (missing, questions)).
  { rewrite enumerate_missing_spec.
    destruct (gather_dates _ _ _ Hg) as [Hd _].
    rewrite (opt_truthy_is_some _ Hd).
    unfold missing, questions, depdate_missing.
    destruct (depdate f); reflexivity. }
  split; [exact He |]. split.
  - intros Hne. rewrite (parse_query_extracted _ _ _ _ Hx), Hg.
    cbn [fst]. unfold respond. rewrite He.
    destruct missing; [contradiction Hne; reflexivity |]. auto.
  - intros Hf Ht Hd. unfold missing. rewrite Hf, Ht, Hd. reflexivity.
Qed.

(** C1.  When the response has status "complete": no field is missing; the
    payload's first segment holds the departure city, the arrival city and
    the departure date; there is a second segment exactly when a return
    date was resolved, with the two cities swapped; and there is no
    third. *)
Theorem complete_payload (request_json : result pyval) (log log' : list string)
    (p : payload) :
  parse_query E request_json log = (Complete p, log') ->
  exists user_query parsed f,
    extracted E request_json log user_query parsed
    /\ gather E user_query parsed = OK f
    /\ fst (enumerate_missing E f) = []
    /\ is_missing E (depfrom f) = false
    /\ is_missing E (arrto f) = false
    /\ (exists d, depdate f = Some d /\ d <> "")
    /\ exists outbound,
         seg_depfrom outbound = depfrom f
         /\ seg_arrto outbound = arrto f
         /\ seg_depdate outbound = depdate f
         /\ (retdate f = None -> p_segments p = [outbound])
         /\ (forall r, retdate f = Some r ->
             exists inbound,
               p_segments p = [outbound; inbound]
               /\ seg_depfrom inbound = seg_arrto outbound
               /\ seg_arrto inbound = seg_depfrom outbound
               /\ seg_depdate inbound = Some r).
Proof.
  intros H.
  destruct (parse_query_status _ _ _ _ H)
    as (uq & parsed & f & Hx & Hg & Hr & _); [discriminate |].
  exists uq, parsed, f. split; [exact Hx |]. split; [exact Hg |].
  unfold respond in Hr. rewrite enumerate_missing_spec in Hr |- *.
  destruct (is_missing E (depfrom f)); [discriminate Hr |].
  destruct (is_missing E (arrto f)); [discriminate Hr |].
  destruct (negb (truthy (depdate_raw f)) || negb (opt_truthy (depdate f)))
    eqn:Hd; [discriminate Hr |].
  cbn [app fst] in Hr |- *. injection Hr as ->.
  repeat (split; [reflexivity |]).
  apply orb_false_iff in Hd. destruct Hd as [_ Hd].
  apply negb_false_iff in Hd. split.
  - destruct (depdate f) as [d |]; [| discriminate Hd]. exists d.
    split; [reflexivity |]. intros ->. discriminate Hd.
  - exists (mk_segment (depfrom f) (arrto f) (depdate f)).
    cbn [seg_depfrom seg_arrto seg_depdate]. repeat (split; [reflexivity |]).
    destruct (gather_dates _ _ _ Hg) as [_ Ht].
    unfold build_payload. cbn [p_segments].
    rewrite (opt_truthy_is_some _ Ht). split.
    + intros ->. reflexivity.
    + intros r ->. eexists. split; [reflexivity |]. auto.
Qed.

(** *** The return date *)


(** *** The city cross-check *)

Lemma cross_check_absent (word q : string) (city : pyval) :
  contains word (lower q) = false ->
  cross_check word city (PyStr q)
  = OK (if truthy city then PyNone else city).
Proof.
  intros H. unfold cross_check. destruct (truthy city); [| reflexivity].
  simpl. rewrite H. reflexivity.
Qed.

Lemma cross_check_present (word q : string) (city : pyval) :
  contains word (lower q) = true ->
  cross_check word city (PyStr q) = OK city.
Proof.
  intros H. unfold cross_check. destruct (truthy city); [| reflexivity].
  simpl. rewrite H. reflexivity.
Qed.

Lemma falsy_missing (city : pyval) :
  truthy city = false -> city = PyNone \/ (exists s, city = PyStr s) ->
  is_missing E city = true.
Proof.
  intros Hf [-> | [s ->]]; [reflexivity |].
  simpl in Hf. apply negb_false_iff, String.eqb_eq in Hf. subst s.
  reflexivity.
Qed.

(** What the cross-check does ensure.  When the lowercased query does not
    contain "from", a truthy departure city is replaced by [None] and a
    falsy one is left as it is; so the departure city is missing after the
    cross-check whenever the model gave [null], a string or any truthy
    value for it.  The same holds of "to" and the arrival city. *)
Lemma cross_check_forces_missing (q : string) (parsed : pyval)
    (f : fields) :
  gather E (PyStr q) parsed = OK f ->
  exists items,
    parsed = PyDict items
    /\ (contains "from" (lower q) = false ->
        let city := get_default items "from" PyNone in
        depfrom f = (if truthy city then PyNone else city)
        /\ (truthy city = true \/ city = PyNone \/ (exists s, city = PyStr s)
            -> is_missing E (depfrom f) = true))
    /\ (contains "to" (lower q) = false ->
        let city := get_default items "to" PyNone in
        arrto f = (if truthy city then PyNone else city)
        /\ (truthy city = true \/ city = PyNone \/ (exists s, city = PyStr s)
            -> is_missing E (arrto f) = true)).
Proof.
  intros Hg. apply gather_inv in Hg.
  destruct Hg as (items & -> & _ & _ & Hfrom & Hto & _).
  exists items. split; [reflexivity |]. split.
  - intros Hq city. fold city in Hfrom.
    rewrite (cross_check_absent _ _ _ Hq) in Hfrom. injection Hfrom as <-.
    split; [reflexivity |]. intros Hc.
    destruct (truthy city) eqn:Ht; [reflexivity |].
    apply falsy_missing; [exact Ht |].
    destruct Hc as [Hc | Hc]; [discriminate Hc | exact Hc].
  - intros Hq city. fold city in Hto.
    rewrite (cross_check_absent _ _ _ Hq) in Hto. injection Hto as <-.
    split; [reflexivity |]. intros Hc.
    destruct (truthy city) eqn:Ht; [reflexivity |].
    apply falsy_missing; [exact Ht |].
    destruct Hc as [Hc | Hc]; [discriminate Hc | exact Hc].
Qed.

(** *** Malformed output of the completer *)

(** C8.  Once the completer has answered [text], the response extractor
    looks for the text [span] from the first opening brace of the answer to
    the last closing brace after it (trimming the answer first changes
    nothing to that), and decodes it.  When there are no such braces the
    response is the error "Invalid JSON in model output" with status 500;
    when [json.loads] raises on [span] it is the error text of that
    exception with status 500.  Either way one prompt, and no more, was sent
    to the completer. *)
Theorem malformed_model_output (data user_query : pyval) (log : list string)
    (text : string) :
  py_get data "query" PyNone = OK user_query ->
  truthy user_query = true ->
  chat E log (build_prompt E user_query) = OK text ->
  let sent := (log ++ [build_prompt E user_query])%list in
  search_json (strip text) = search_json text
  /\ (search_json text = None <->
      ~ exists before body rest, text = before ++ "{" ++ body ++ "}" ++ rest)
  /\ (forall span,
        search_json text = Some span ->
        exists before body rest,
          text = before ++ span ++ rest
          /\ span = "{" ++ body ++ "}"
          /\ has_char "{" before = false
          /\ has_char "}" rest = false)
  /\ (search_json text = None ->
      parse_query E (OK data) log
      = (Error (Literal "Invalid JSON in model output") 500, sent))
  /\ (forall span e,
        search_json text = Some span -> json_loads E span = Raise e ->
        parse_query E (OK data) log = (Error (StrOf e) 500, sent))
  /\ (forall span parsed,
        search_json text = Some span -> json_loads E span = OK parsed ->
        extracted E (OK data) log user_query parsed).
Proof.
  intros Hq Ht Hc sent.
  pose proof (PatternFacts.search_json_strip text) as Hstrip.
  split; [exact Hstrip |].
  split; [apply PatternFacts.search_json_None |].
  split; [intros span; apply PatternFacts.search_json_Some |].
  assert (Hp : parse_query E (OK data) log
               = (match after_chat E user_query (OK text) with
                  | OK r => r
                  | Raise e => Error (StrOf e) 500
                  end, sent)).
  { unfold parse_query, try_block. simpl bind. rewrite Hq, Ht. cbn [negb].
    rewrite Hc. destruct (after_chat E user_query (OK text)); reflexivity. }
  split; [| split].
  - intros Hs. rewrite Hp. unfold after_chat. simpl bind.
    rewrite Hstrip, Hs. reflexivity.
  - intros span e Hs Hj. rewrite Hp. unfold after_chat. simpl bind.
    rewrite Hstrip, Hs, Hj. reflexivity.
  - intros span parsed Hs Hj. exists data, text, span.
    rewrite Hstrip. repeat split; assumption.
Qed.

(** *** Unresolved dates *)



(** *** Passenger counts *)





End Facts.

End Pipeline.

(** * The properties on concrete requests *)

Module Examples.

Import Str Cal App Scenario.

Lemma extracted_here (W : externals) (query : string) (parsed : pyval)
    (text span : string) :
  negb (String.eqb query "") = true ->
  chat W [] (build_prompt W (PyStr query)) = OK text ->
  search_json (strip text) = Some span ->
  json_loads W span = OK parsed ->
  extracted W (request query) [] (PyStr query) parsed.
Proof.
  intros Hq Hc Hs Hj.
  exists (PyDict [("query", PyStr query)]), text, span.
  repeat split; assumption.
Qed.

Lemma round_trip_extracted :
  extracted round_trip_world (request round_trip_query) []
    (PyStr round_trip_query) round_trip_obj.
Proof.
  apply (extracted_here _ _ _ ("Sure! " ++ round_trip_span ++ " Let me know.")
           round_trip_span); vm_compute; reflexivity.
Qed.

Lemma vague_extracted :
  extracted vague_world (request vague_query) [] (PyStr vague_query)
    vague_obj.
Proof.
  apply (extracted_here _ _ _ vague_span vague_span); vm_compute; reflexivity.
Qed.


(** C1 on the round trip of the specification: two segments, the second
    with the cities swapped. *)
Lemma complete_payload_witness :
  parse_query round_trip_world (request round_trip_query) []
  = (Complete round_trip_payload,
     [build_prompt round_trip_world (PyStr round_trip_query)])
  /\ exists user_query parsed f,
       gather round_trip_world user_query parsed = OK f
       /\ fst (enumerate_missing round_trip_world f) = [].
Proof.
  assert (H : parse_query round_trip_world (request round_trip_query) []
              = (Complete round_trip_payload,
                 [build_prompt round_trip_world (PyStr round_trip_query)]))
    by (vm_compute; reflexivity).
  split; [exact H |].
  destruct (Pipeline.complete_payload _ _ _ _ _ H)
    as (uq & parsed & f & _ & Hg & Hm & _).
  exists uq, parsed, f. split; assumption.
Defined.

(** C2 on a query that resolves none of the three fields. *)
Lemma missing_enumeration_witness :
  gather vague_world (PyStr vague_query) vague_obj = OK vague_fields
  /\ enumerate_missing vague_world vague_fields
     = (["from"; "to"; "depdate"], [Q_FROM; Q_TO; Q_DEPDATE])
  /\ fst (parse_query vague_world (request vague_query) [])
     = Incomplete "Missing fields: from, to, depdate"
         ["from"; "to"; "depdate"] [Q_FROM; Q_TO; Q_DEPDATE]
         PyNone (PyStr "Not Provided") (PyStr "sometime").
Proof.
  assert (Hg : gather vague_world (PyStr vague_query) vague_obj
               = OK vague_fields) by (vm_compute; reflexivity).
  split; [exact Hg |].
  destruct (Pipeline.missing_enumeration _ _ _ _ _ _ vague_extracted Hg)
    as (He & Hr & _).
  split; [exact He |]. exact (proj1 (Hr ltac:(discriminate))).
Defined.



(** C4 on "Day after Tomorrow" and on "tomorrow morning". *)
Lemma tomorrow_rules_witness :
  valid clock = true
  /\ parse_date_string round_trip_world (PyStr "Day after Tomorrow") None
     = OK (Some "2024-01-17")
  /\ parse_date_string round_trip_world (PyStr "tomorrow morning") None
     = OK (Some "2024-01-16").
Proof.
  split; [reflexivity |].
  destruct (Normalizer.tomorrow_rules round_trip_world "Day after Tomorrow"
              None eq_refl) as [H2 _].
  destruct (Normalizer.tomorrow_rules round_trip_world "tomorrow morning"
              None eq_refl) as [_ H1].
  destruct (H2 eq_refl ltac:(vm_compute; discriminate))
    as (d2 & Hd2 & _ & _ & Hp2).
  destruct (H1 eq_refl eq_refl ltac:(vm_compute; discriminate))
    as (d1 & Hd1 & _ & _ & Hp1).
  vm_compute in Hd2, Hd1. injection Hd2 as <-. injection Hd1 as <-.
  split; [exact Hp2 | exact Hp1].
Defined.

(** C4 fails on the last day a [datetime] can hold: a departure on
    9999-12-31 with the return "tomorrow" ends in the 500 response. *)
Lemma tomorrow_rules_counterexample :
  valid last_day = true
  /\ contains "tomorrow" (strip (lower "tomorrow")) = true
  /\ parse_date_string far_world (PyStr "tomorrow") (Some last_day)
     = Raise OverflowError
  /\ fst (parse_query far_world (request far_query) [])
     = Error (StrOf OverflowError) 500.
Proof.
  repeat split; vm_compute; reflexivity.
Qed.


(** A query that names no departure city while the model gives one: the
    city is discarded. *)
Lemma guessed_city_discarded :
  gather guessed_world (PyStr one_way_query) guessed_obj = OK guessed_fields
  /\ contains "from" (lower one_way_query) = false
  /\ is_missing guessed_world (depfrom guessed_fields) = true.
Proof.
  assert (Hg : gather guessed_world (PyStr one_way_query) guessed_obj
               = OK guessed_fields) by (vm_compute; reflexivity).
  split; [exact Hg |]. split; [reflexivity |].
  destruct (Pipeline.cross_check_forces_missing _ _ _ _ Hg)
    as (items & Hi & Hfrom & _).
  injection Hi as <-.
  destruct (Hfrom eq_refl) as [_ Hm]. apply Hm. left. reflexivity.
Qed.

(** C7 does not hold of the code.  The query [bare_query] holds neither
    "from" nor "to" and the model gives 0 and false for the two cities:
    both are falsy, so lines 98 to 101 leave them as they are, and
    [is_missing] holds of neither ([str] gives "0" and "False").  No field is
    missing and the response is complete, with 0 and false as the cities of
    its segment. *)
Theorem falsy_city_not_forced :
  contains "from" (lower bare_query) = false
  /\ contains "to" (lower bare_query) = false
  /\ json_loads zero_world zero_span = OK zero_obj
  /\ cross_check "from" (PyInt 0) (PyStr bare_query) = OK (PyInt 0)
  /\ cross_check "to" (PyBool false) (PyStr bare_query) = OK (PyBool false)
  /\ is_missing zero_world (PyInt 0) = false
  /\ is_missing zero_world (PyBool false) = false
  /\ fst (parse_query zero_world (request bare_query) [])
     = Complete zero_payload.
Proof.
  repeat split; vm_compute; reflexivity.
Qed.

(** C8 on an answer without braces in the right order and on one whose
    braces hold no JSON. *)
Lemma malformed_model_output_witness :
  parse_query no_json_world (request round_trip_query) []
  = (Error (Literal "Invalid JSON in model output") 500,
     [build_prompt no_json_world (PyStr round_trip_query)])
  /\ parse_query bad_json_world (request round_trip_query) []
     = (Error (StrOf (External "JSONDecodeError")) 500,
        [build_prompt bad_json_world (PyStr round_trip_query)]).
Proof.
  destruct (Pipeline.malformed_model_output no_json_world
              (PyDict [("query", PyStr round_trip_query)])
              (PyStr round_trip_query) [] "I could not } find { anything"
              eq_refl eq_refl eq_refl) as (_ & _ & _ & Hnone & _).
  destruct (Pipeline.malformed_model_output bad_json_world
              (PyDict [("query", PyStr round_trip_query)])
              (PyStr round_trip_query) [] "Here: {from: Delhi}"
              eq_refl eq_refl eq_refl) as (_ & _ & _ & _ & Hbad & _).
  split.
  - apply Hnone. reflexivity.
  - apply (Hbad "{from: Delhi}"); reflexivity.
Defined.



End Examples.
